(** * fastquant.strategies: position sizing and order life cycle

    A shallow embedding of [fastquant/strategies.py]: the strategy
    template [BaseStrategy] with its callbacks [notify_order],
    [notify_cashvalue], [next], the two signal variants [RSIStrategy] and
    [SMACStrategy], and the entry point [backtest].

    Conventions of the embedding:
    - Python floats (cash, prices, proportions) are read as exact
      rationals [Q]; rounding of binary64 arithmetic is not modelled.
    - Python integers are [Z]; [int(x)] truncates toward zero.
    - A method is a computation in the monad [M]: it threads the [World]
      (the strategy object, the data lines with their cursor, the broker
      and the printed output) and may raise a Python exception.
    - What the strategy calls in the backtrader framework ([len(self)],
      line indexing, [Strategy.buy], [Strategy.sell]) and the engine
      that drives it ([Cerebro], the broker) follow backtrader's
      behaviour; they are not part of the repository's own file and are
      kept apart from its code, in [bt], in the section on the framework
      and in [Cerebro].
    - Line numbers refer to fastquant/strategies.py. *)

From Stdlib Require Import ZArith QArith Qround List String Bool Lia.
Import ListNotations.
Local Open Scope Z_scope.

(** ** Python values and built-ins *)

Module Py.

Inductive Exn :=
| ZeroDivisionError
| IndexError
| MemoryError
| KeyError (key : string)
| AttributeError (name : string).

(** [int(x)] for a float [x]: the fractional part is dropped. *)
Definition int (x : Q) : Z := Z.quot (Qnum x) (Zpos (Qden x)).

(** [x / y] on floats; a zero divisor raises. *)
Definition truediv (x y : Q) : option Q :=
  if Qeq_bool y 0 then None else Some (x / y)%Q.

(** [seq[i]]: a negative index counts from the end; out of range is an
    [IndexError], here [None]. *)
Definition getitem {A : Type} (l : list A) (i : Z) : option A :=
  let n := Z.of_nat (List.length l) in
  if i <? 0
  then (if i + n <? 0 then None else nth_error l (Z.to_nat (i + n)))
  else nth_error l (Z.to_nat i).

(** [list(obj)] for an object that has [__getitem__] and no [__iter__]:
    the items [obj[0]], [obj[1]], ... up to the first [IndexError].
    [None] when the fuel runs out before an [IndexError] is met. *)
Fixpoint list_ {A : Type} (fuel : nat) (get : Z -> option A) (i : Z)
  : option (list A) :=
  match fuel with
  | O => None
  | S fuel' =>
      match get i with
      | None => Some []
      | Some x => option_map (cons x) (list_ fuel' get (i + 1))
      end
  end.

End Py.

(** ** Module-level constants of strategies.py *)

Definition INIT_CASH : Q := 100000.
Definition COMMISSION_PER_TRANSACTION : Q := 75 # 10000.
Definition BUY_PROP : Q := 1.
Definition SELL_PROP : Q := 1.

(** ** backtrader: orders *)

Module bt.

Inductive Status :=
| Created | Submitted | Accepted | Partial | Completed
| Canceled | Expired | Margin | Rejected.

Definition status_eqb (a b : Status) : bool :=
  match a, b with
  | Created, Created | Submitted, Submitted | Accepted, Accepted
  | Partial, Partial | Completed, Completed | Canceled, Canceled
  | Expired, Expired | Margin, Margin | Rejected, Rejected => true
  | _, _ => false
  end.

(** [status in [s1, ..., sn]] *)
Definition status_in (s : Status) (l : list Status) : bool :=
  existsb (status_eqb s) l.

(** Execution types the strategy uses: the default (market) and
    [bt.Order.Close]. *)
Inductive ExecType := Market | Close.

(** [order.executed] *)
Record OrderData := { price : Q; value : Q; comm : Q }.

Record Order := {
  isbuy : bool;
  size : Z;
  exectype : ExecType;
  status : Status;
  executed : OrderData
}.

Definition no_execution : OrderData :=
  {| price := 0; value := 0; comm := 0 |}.

Definition with_status (o : Order) (s : Status) (e : OrderData) : Order :=
  {| isbuy := isbuy o; size := size o; exectype := exectype o;
     status := s; executed := e |}.

End bt.

(** ** Printed output

    One constructor per format string of the file; the numbers are kept
    as values instead of their [%.2f] rendering, and the date prefix
    that [log] prepends is left out. *)

Inductive Out :=
| PrintGlobalArgs (init_cash buy_prop sell_prop : Q)
| PrintRSIArgs (rsi_period : Z) (rsi_upper rsi_lower : Q)
| PrintSMACArgs (fast_period slow_period : Z)
| LogClose (close : Q)
| LogCurrentPositionSize (size : Z)
| LogBuyCreate (close : Q)
| LogCash (cash : Q)
| LogPrice (close : Q)
| LogBuyPropSize (n : Z)
| LogAffordedSize (n : Z)
| LogFinalSize (n : Z)
| LogSellCreate (next_close : Q)
| LogBuyExecuted (price value comm : Q)
| LogSellExecuted (price value comm : Q)
| LogCashValue (cash value : Q)
| LogOrderCanceledMarginRejected
| LogCanceled (b : bool)
| LogMargin (b : bool)
| LogRejected (b : bool)
| LogOperationProfit (gross net : Q)
| PrintStartingPortfolioValue (value : Q)
| PrintFinalPortfolioValue (value : Q).

(** ** The strategy object *)

Inductive Class := BaseStrategy | RSIStrategy | SMACStrategy.

(** [params]: the tuple of [BaseStrategy] followed by those of the two
    subclasses. *)
Module Params.
Record t := {
  init_cash : Q;
  buy_prop : Q;
  sell_prop : Q;
  execution_type : string;
  periodic_logging : bool;
  transaction_logging : bool;
  rsi_period : Z;
  rsi_upper : Q;
  rsi_lower : Q;
  fast_period : Z;
  slow_period : Z
}.

Definition default : t :=
  {| init_cash := INIT_CASH; buy_prop := BUY_PROP; sell_prop := SELL_PROP;
     execution_type := "close"; periodic_logging := false;
     transaction_logging := true;
     rsi_period := 14; rsi_upper := 70; rsi_lower := 30;
     fast_period := 10; slow_period := 30 |}.
End Params.

(** The attributes of a strategy instance.  An attribute that is assigned
    outside [BaseStrategy.__init__] is [None] until its first
    assignment. *)
Record Strategy := {
  cls : Class;
  params : Params.t;
  init_cash : Q;
  buy_prop : Q;
  sell_prop : Q;
  execution_type : string;
  periodic_logging : bool;
  transaction_logging : bool;
  order : option bt.Order;
  buyprice : option Q;
  buycomm : option Q;
  len_data : Z;
  cash : option Q;
  value : option Q;
  bar_executed : option Z;
  rsi_upper : option Q;
  rsi_lower : option Q
}.

Definition set_order (s : Strategy) (o : option bt.Order) : Strategy :=
  {| cls := cls s; params := params s; init_cash := init_cash s;
     buy_prop := buy_prop s; sell_prop := sell_prop s;
     execution_type := execution_type s;
     periodic_logging := periodic_logging s;
     transaction_logging := transaction_logging s;
     order := o;
     buyprice := buyprice s; buycomm := buycomm s; len_data := len_data s;
     cash := cash s; value := value s; bar_executed := bar_executed s;
     rsi_upper := rsi_upper s; rsi_lower := rsi_lower s |}.

Definition set_buyprice_buycomm (s : Strategy) (p c : Q) : Strategy :=
  {| cls := cls s; params := params s; init_cash := init_cash s;
     buy_prop := buy_prop s; sell_prop := sell_prop s;
     execution_type := execution_type s;
     periodic_logging := periodic_logging s;
     transaction_logging := transaction_logging s;
     order := order s;
     buyprice := Some p; buycomm := Some c; len_data := len_data s;
     cash := cash s; value := value s; bar_executed := bar_executed s;
     rsi_upper := rsi_upper s; rsi_lower := rsi_lower s |}.

Definition set_bar_executed (s : Strategy) (n : Z) : Strategy :=
  {| cls := cls s; params := params s; init_cash := init_cash s;
     buy_prop := buy_prop s; sell_prop := sell_prop s;
     execution_type := execution_type s;
     periodic_logging := periodic_logging s;
     transaction_logging := transaction_logging s;
     order := order s;
     buyprice := buyprice s; buycomm := buycomm s; len_data := len_data s;
     cash := cash s; value := value s; bar_executed := Some n;
     rsi_upper := rsi_upper s; rsi_lower := rsi_lower s |}.

Definition set_cash_value (s : Strategy) (c v : Q) : Strategy :=
  {| cls := cls s; params := params s; init_cash := init_cash s;
     buy_prop := buy_prop s; sell_prop := sell_prop s;
     execution_type := execution_type s;
     periodic_logging := periodic_logging s;
     transaction_logging := transaction_logging s;
     order := order s;
     buyprice := buyprice s; buycomm := buycomm s; len_data := len_data s;
     cash := Some c; value := Some v; bar_executed := bar_executed s;
     rsi_upper := rsi_upper s; rsi_lower := rsi_lower s |}.

Definition set_rsi_bounds (s : Strategy) (upper lower : Q) : Strategy :=
  {| cls := cls s; params := params s; init_cash := init_cash s;
     buy_prop := buy_prop s; sell_prop := sell_prop s;
     execution_type := execution_type s;
     periodic_logging := periodic_logging s;
     transaction_logging := transaction_logging s;
     order := order s;
     buyprice := buyprice s; buycomm := buycomm s; len_data := len_data s;
     cash := cash s; value := value s; bar_executed := bar_executed s;
     rsi_upper := Some upper; rsi_lower := Some lower |}.

(** ** The world a callback runs in *)

Record World := {
  (** [self.datas[0].close] and [.open], aliased by [self.dataclose] and
      [self.dataopen]: the whole preloaded buffers *)
  dataclose : list Q;
  dataopen : list Q;
  (** the buffers of [self.rsi] and [self.crossover] *)
  rsi : list Q;
  crossover : list Q;
  (** the cursor the line buffers share: -1 before the first bar, then
      the index of the current bar *)
  idx : Z;
  (** [self.position.size], kept by the broker *)
  position_size : Z;
  (** the orders handed to the broker so far, oldest first *)
  submitted : list bt.Order;
  (** what was printed so far, oldest first *)
  stdout : list Out;
  self : Strategy
}.

Definition with_self (w : World) (s : Strategy) : World :=
  {| dataclose := dataclose w; dataopen := dataopen w; rsi := rsi w;
     crossover := crossover w; idx := idx w;
     position_size := position_size w; submitted := submitted w;
     stdout := stdout w; self := s |}.

Definition with_stdout (w : World) (out : list Out) : World :=
  {| dataclose := dataclose w; dataopen := dataopen w; rsi := rsi w;
     crossover := crossover w; idx := idx w;
     position_size := position_size w; submitted := submitted w;
     stdout := out; self := self w |}.

Definition with_idx (w : World) (i : Z) : World :=
  {| dataclose := dataclose w; dataopen := dataopen w; rsi := rsi w;
     crossover := crossover w; idx := i;
     position_size := position_size w; submitted := submitted w;
     stdout := stdout w; self := self w |}.

Definition with_position_size (w : World) (n : Z) : World :=
  {| dataclose := dataclose w; dataopen := dataopen w; rsi := rsi w;
     crossover := crossover w; idx := idx w;
     position_size := n; submitted := submitted w;
     stdout := stdout w; self := self w |}.

Definition with_submitted (w : World) (os : list bt.Order) : World :=
  {| dataclose := dataclose w; dataopen := dataopen w; rsi := rsi w;
     crossover := crossover w; idx := idx w;
     position_size := position_size w; submitted := os;
     stdout := stdout w; self := self w |}.

(** ** The monad of callbacks: state and exceptions *)

Inductive Result (A : Type) :=
| Ok (a : A)
| Raise (e : Py.Exn).
Arguments Ok {A} a.
Arguments Raise {A} e.

Definition M (A : Type) : Type := World -> Result A * World.

Definition ret {A : Type} (a : A) : M A := fun w => (Ok a, w).

Definition bind {A B : Type} (m : M A) (k : A -> M B) : M B :=
  fun w =>
    match m w with
    | (Ok a, w') => k a w'
    | (Raise e, w') => (Raise e, w')
    end.

Declare Scope py_scope.
Delimit Scope py_scope with py.
Notation "x <- m ;; k" := (bind m (fun x => k))
  (at level 61, m at next level, right associativity) : py_scope.
Notation "m ;; k" := (bind m (fun _ => k))
  (at level 61, right associativity) : py_scope.
Local Open Scope py_scope.

Definition raise {A : Type} (e : Py.Exn) : M A := fun w => (Raise e, w).

Definition get : M World := fun w => (Ok w, w).

Definition put_self (s : Strategy) : M unit :=
  fun w => (Ok tt, with_self w s).

(** [if c: body] *)
Definition when (c : bool) (body : M unit) : M unit :=
  if c then body else ret tt.

(** An attribute that may not be assigned yet. *)
Definition getattr {A : Type} (name : string) (a : option A) : M A :=
  match a with
  | Some x => ret x
  | None => raise (Py.AttributeError name)
  end.

(** [x / y] *)
Definition truediv (x y : Q) : M Q :=
  match Py.truediv x y with
  | Some q => ret q
  | None => raise Py.ZeroDivisionError
  end.

Definition print (o : Out) : M unit :=
  fun w => (Ok tt, with_stdout w (stdout w ++ [o])).

Definition Qltb (x y : Q) : bool := negb (Qle_bool y x).

(** ** backtrader: what a strategy sees of the framework *)

(** [line[ago]]: backtrader's [LineBuffer.__getitem__] is
    [self.array[self.idx + ago]]. *)
Definition line_getitem (line : World -> list Q) (ago : Z) : M Q :=
  w <- get ;;
  match Py.getitem (line w) (idx w + ago) with
  | Some x => ret x
  | None => raise Py.IndexError
  end.

(** [len(self)]: the number of bars delivered so far, the current one
    included. *)
Definition len_self : M Z := w <- get ;; ret (idx w + 1).

(** [self.broker.buy(...)] / [self.broker.sell(...)]: the order joins the
    broker's queue. *)
Definition broker_submit (o : bt.Order) : M bt.Order :=
  fun w => (Ok o, with_submitted w (submitted w ++ [o])).

(** [self.buy(size=..., exectype=...)]: backtrader's [Strategy.buy] hands
    the order to the broker with [abs(size)] when [size] is non-zero and
    returns [None] otherwise. *)
Definition buy (size : Z) (exectype : bt.ExecType) : M (option bt.Order) :=
  if size =? 0 then ret None
  else
    o <- broker_submit {| bt.isbuy := true; bt.size := Z.abs size;
                          bt.exectype := exectype;
                          bt.status := bt.Submitted;
                          bt.executed := bt.no_execution |} ;;
    ret (Some o).

(** [self.sell(size=..., exectype=...)], as [buy]. *)
Definition sell (size : Z) (exectype : bt.ExecType) : M (option bt.Order) :=
  if size =? 0 then ret None
  else
    o <- broker_submit {| bt.isbuy := false; bt.size := Z.abs size;
                          bt.exectype := exectype;
                          bt.status := bt.Submitted;
                          bt.executed := bt.no_execution |} ;;
    ret (Some o).

(** ** BaseStrategy *)

(** [log(txt)]: one printed line. *)
Definition log (txt : Out) : M unit := print txt.

(** [list(self.datas[0])].  The feed has no [__iter__]; [list] walks it
    through [__getitem__], which reads its first line, [close], relative
    to the cursor: items 0, 1, 2, ... until [IndexError].  On the
    preloaded feed the cursor is at -1, so item 0 is read at index -1,
    the last bar, and items 1 to [N] are the [N] bars.  The fuel covers
    that walk; [MemoryError] stands for a walk that does not end. *)
Definition list_datas0 : M (list Q) :=
  w <- get ;;
  match Py.list_ (List.length (dataclose w) + 2)
                 (fun i => Py.getitem (dataclose w) (idx w + i)) 0 with
  | Some l => ret l
  | None => raise Py.MemoryError
  end.

(** [BaseStrategy.__init__], lines 61-80.  The instance it fills in
    belongs to class [c] and carries [p] as [self.params]. *)
Definition BaseStrategy__init__ (c : Class) (p : Params.t) : M unit :=
  print (PrintGlobalArgs (Params.init_cash p) (Params.buy_prop p)
                         (Params.sell_prop p)) ;;
  l <- list_datas0 ;;
  put_self
    {| cls := c; params := p;
       init_cash := Params.init_cash p;
       buy_prop := Params.buy_prop p;
       sell_prop := Params.sell_prop p;
       execution_type := Params.execution_type p;
       periodic_logging := Params.periodic_logging p;
       transaction_logging := Params.transaction_logging p;
       order := None; buyprice := None; buycomm := None;
       len_data := Z.of_nat (List.length l);
       cash := None; value := None; bar_executed := None;
       rsi_upper := None; rsi_lower := None |}.

(** [RSIStrategy.__init__], lines 247-259; the indicator itself is
    backtrader's and shows as the line [rsi] of the world. *)
Definition RSIStrategy__init__ (p : Params.t) : M unit :=
  BaseStrategy__init__ RSIStrategy p ;;
  w <- get ;;
  put_self (set_rsi_bounds (self w) (Params.rsi_upper p) (Params.rsi_lower p)) ;;
  print (PrintRSIArgs (Params.rsi_period p) (Params.rsi_upper p)
                      (Params.rsi_lower p)).

(** [SMACStrategy.__init__], lines 286-298; the crossover indicator shows
    as the line [crossover] of the world. *)
Definition SMACStrategy__init__ (p : Params.t) : M unit :=
  BaseStrategy__init__ SMACStrategy p ;;
  print (PrintSMACArgs (Params.fast_period p) (Params.slow_period p)).

(** Instantiation: the [__init__] of the class. *)
Definition __init__ (c : Class) (p : Params.t) : M unit :=
  match c with
  | BaseStrategy => BaseStrategy__init__ BaseStrategy p
  | RSIStrategy => RSIStrategy__init__ p
  | SMACStrategy => SMACStrategy__init__ p
  end.

(** [buy_signal], overridden per class (lines 82, 261, 300). *)
Definition buy_signal : M bool :=
  w <- get ;;
  match cls (self w) with
  | BaseStrategy => ret true
  | RSIStrategy =>
      r <- line_getitem rsi 0 ;;
      lower <- getattr "rsi_lower" (rsi_lower (self w)) ;;
      ret (Qltb r lower)
  | SMACStrategy =>
      c <- line_getitem crossover 0 ;;
      ret (Qltb 0 c)
  end.

(** [sell_signal], overridden per class (lines 85, 264, 303). *)
Definition sell_signal : M bool :=
  w <- get ;;
  match cls (self w) with
  | BaseStrategy => ret true
  | RSIStrategy =>
      r <- line_getitem rsi 0 ;;
      upper <- getattr "rsi_upper" (rsi_upper (self w)) ;;
      ret (Qltb upper r)
  | SMACStrategy =>
      c <- line_getitem crossover 0 ;;
      ret (Qltb c 0)
  end.

(** [notify_order], lines 88-129. *)
Definition notify_order (o : bt.Order) : M unit :=
  if bt.status_in (bt.status o) [bt.Submitted; bt.Accepted] then ret tt
  else
    (if bt.status_in (bt.status o) [bt.Completed] then
       (if bt.isbuy o then
          w <- get ;;
          when (transaction_logging (self w))
               (log (LogBuyExecuted (bt.price (bt.executed o))
                                    (bt.value (bt.executed o))
                                    (bt.comm (bt.executed o)))) ;;
          w <- get ;;
          put_self (set_buyprice_buycomm (self w)
                      (bt.price (bt.executed o)) (bt.comm (bt.executed o)))
        else
          w <- get ;;
          when (transaction_logging (self w))
               (log (LogSellExecuted (bt.price (bt.executed o))
                                     (bt.value (bt.executed o))
                                     (bt.comm (bt.executed o))))) ;;
       n <- len_self ;;
       w <- get ;;
       put_self (set_bar_executed (self w) n)
     else if bt.status_in (bt.status o)
                          [bt.Canceled; bt.Margin; bt.Rejected] then
       w <- get ;;
       when (transaction_logging (self w))
            (when (negb (periodic_logging (self w)))
                  (c <- getattr "cash" (cash (self w)) ;;
                   v <- getattr "value" (value (self w)) ;;
                   log (LogCashValue c v)) ;;
             log LogOrderCanceledMarginRejected ;;
             log (LogCanceled (bt.status_eqb (bt.status o) bt.Canceled)) ;;
             log (LogMargin (bt.status_eqb (bt.status o) bt.Margin)) ;;
             log (LogRejected (bt.status_eqb (bt.status o) bt.Rejected)))
     else ret tt) ;;
    (* Write down: no pending order *)
    w <- get ;;
    put_self (set_order (self w) None).

(** [notify_trade], lines 131-137: [isclosed], [pnl] and [pnlcomm] of
    the trade. *)
Definition notify_trade (isclosed : bool) (pnl pnlcomm : Q) : M unit :=
  if negb isclosed then ret tt
  else
    w <- get ;;
    when (transaction_logging (self w)) (log (LogOperationProfit pnl pnlcomm)).

(** [notify_cashvalue], lines 139-144. *)
Definition notify_cashvalue (c v : Q) : M unit :=
  w <- get ;;
  when (periodic_logging (self w)) (log (LogCashValue c v)) ;;
  w <- get ;;
  put_self (set_cash_value (self w) c v).

(** The expression of lines 169-172 and 188-191:
    [int(cash / (price * (1 + COMMISSION_PER_TRANSACTION + 0.001)))]. *)
Definition afforded_size (cash price : Q) : M Z :=
  q <- truediv cash (price * (1 + COMMISSION_PER_TRANSACTION + (1 # 1000)))%Q ;;
  ret (Py.int q).

(** The size of the buy, lines 169-182 and 188-196: the sizes are
    computed and printed. *)
Definition final_size (c close0 : Q) : M Z :=
  w <- get ;;
  afforded <- afforded_size c close0 ;;
  let buy_prop_size := Py.int (inject_Z afforded * buy_prop (self w))%Q in
  (* Buy based on the closing price of the next closing day *)
  if String.eqb (execution_type (self w)) "close" then
    let final_size := Z.min buy_prop_size afforded in
    when (transaction_logging (self w))
         (log (LogCash c) ;;
          log (LogPrice close0) ;;
          log (LogBuyPropSize buy_prop_size) ;;
          log (LogAffordedSize afforded) ;;
          log (LogFinalSize final_size)) ;;
    ret final_size
  (* Buy based on the opening price of the next closing day *)
  else
    open1 <- line_getitem dataopen 1 ;;
    afforded <- afforded_size c open1 ;;
    let final_size := Z.min buy_prop_size afforded in
    when (transaction_logging (self w))
         (log (LogBuyPropSize buy_prop_size) ;;
          log (LogAffordedSize afforded) ;;
          log (LogFinalSize final_size)) ;;
    ret final_size.

(** The buy part of [next], lines 158-197; both execution types end in
    [self.order = self.buy(size=final_size)]. *)
Definition buy_branch : M unit :=
  w <- get ;;
  c <- getattr "cash" (cash (self w)) ;;
  close0 <- line_getitem dataclose 0 ;;
  (* Only buy if there is enough cash for at least one stock *)
  if Qle_bool close0 c then
    b <- buy_signal ;;
    if b then
      when (transaction_logging (self w)) (log (LogBuyCreate close0)) ;;
      n <- final_size c close0 ;;
      o <- buy n bt.Market ;;
      w' <- get ;;
      put_self (set_order (self w') o)
    else ret tt
  else ret tt.

(** The sell part of [next], lines 199-224. *)
Definition sell_branch : M unit :=
  w <- get ;;
  v <- getattr "value" (value (self w)) ;;
  c <- getattr "cash" (cash (self w)) ;;
  let stock_value := (v - c)%Q in
  if Qltb 0 stock_value then
    b <- sell_signal ;;
    if b then
      when (transaction_logging (self w))
           (close1 <- line_getitem dataclose 1 ;; log (LogSellCreate close1)) ;;
      if String.eqb (execution_type (self w)) "close" then
        if Qeq_bool SELL_PROP 1 then
          o <- sell (position_size w) bt.Close ;;
          w' <- get ;;
          put_self (set_order (self w') o)
        else
          close1 <- line_getitem dataclose 1 ;;
          q <- truediv stock_value close1 ;;
          o <- sell (Py.int (q * sell_prop (self w))%Q) bt.Close ;;
          w' <- get ;;
          put_self (set_order (self w') o)
      else
        open1 <- line_getitem dataopen 1 ;;
        q <- truediv (init_cash (self w)) open1 ;;
        o <- sell (Py.int (q * sell_prop (self w))%Q) bt.Market ;;
        w' <- get ;;
        put_self (set_order (self w') o)
    else ret tt
  else ret tt.

(** The guard of line 153, [len(self) + 1 >= self.len_data]. *)
Definition last_bar_guard (w : World) : bool :=
  len_data (self w) <=? (idx w + 1) + 1.

(** Lines 147-148 of [next]. *)
Definition log_close : M unit :=
  w <- get ;;
  when (periodic_logging (self w))
       (close0 <- line_getitem dataclose 0 ;; log (LogClose close0)).

(** Lines 156-157 of [next]. *)
Definition log_position : M unit :=
  w <- get ;;
  when (periodic_logging (self w))
       (log (LogCurrentPositionSize (position_size w))).

(** [next], lines 146-224. *)
Definition next : M unit :=
  log_close ;;
  w <- get ;;
  match order (self w) with
  | Some _ => ret tt
  | None =>
      (* Skip the last observation *)
      if last_bar_guard w then ret tt
      else
        log_position ;;
        buy_branch ;;
        sell_branch
  end.

(** ** backtrader: the engine that drives the callbacks

    [Cerebro] delivers the bars one by one.  For each bar the broker
    first serves the orders queued on earlier bars, the strategy is told
    about them ([notify_order]), then about cash and value
    ([notify_cashvalue]), and finally [next] runs.  The broker is the
    percentage-commission, cheat-on-close broker that [backtest]
    configures: a market order fills at the close of the bar it was
    created on, a [Close] order at the close of the bar that serves it,
    the commission is [size * price * commission], and a buy that would
    leave negative cash is refused with [Margin]. *)

Module Cerebro.

Record Feed := {
  close : list Q;
  (** empty when the data has no such column *)
  open : list Q;
  (** the lines the indicators produce for these bars *)
  rsi_values : list Q;
  crossover_values : list Q;
  (** the number of leading bars on which the indicators are not ready
      and [prenext] runs instead of [next] *)
  warmup : Z
}.

Record Broker := {
  getcash : Q;
  commission : Q;
  (** how many orders of [submitted] were served already *)
  served : nat
}.

Definition price_at (w : World) (ago : Z) : Q :=
  nth (Z.to_nat (idx w + ago)) (dataclose w) 0%Q.

(** The broker serves one order on the current bar. *)
Definition fill (b : Broker) (w : World) (o : bt.Order)
  : Broker * World * bt.Order :=
  let p := match bt.exectype o with
           | bt.Market => price_at w (-1)
           | bt.Close => price_at w 0
           end in
  let cost := (inject_Z (bt.size o) * p)%Q in
  let fee := (cost * commission b)%Q in
  let done := bt.with_status o bt.Completed
                {| bt.price := p; bt.value := cost; bt.comm := fee |} in
  if bt.isbuy o then
    if Qltb (getcash b - cost - fee) 0 then
      ({| getcash := getcash b; commission := commission b;
          served := S (served b) |},
       w, bt.with_status o bt.Margin bt.no_execution)
    else
      ({| getcash := Qred (getcash b - cost - fee); commission := commission b;
          served := S (served b) |},
       with_position_size w (position_size w + bt.size o), done)
  else
    ({| getcash := Qred (getcash b + cost - fee); commission := commission b;
        served := S (served b) |},
     with_position_size w (position_size w - bt.size o), done).

(** The broker serves the queue; the served orders come back in the
    state they reached. *)
Fixpoint serve (b : Broker) (w : World) (queue : list bt.Order)
  : Broker * World * list bt.Order :=
  match queue with
  | [] => (b, w, [])
  | o :: queue' =>
      let '(b1, w1, o1) := fill b w o in
      let '(b2, w2, os) := serve b1 w1 queue' in
      (b2, w2, o1 :: os)
  end.

(** The notifications of one served order: submitted, accepted, then
    its final state. *)
Definition notify (o : bt.Order) : M unit :=
  notify_order (bt.with_status o bt.Submitted bt.no_execution) ;;
  notify_order (bt.with_status o bt.Accepted bt.no_execution) ;;
  notify_order o.

Fixpoint notify_all (os : list bt.Order) : M unit :=
  match os with
  | [] => ret tt
  | o :: os' => notify o ;; notify_all os'
  end.

(** One bar: the cursor advances to [i], then broker, notifications
    and [next]. *)
Definition bar (warm : Z) (bw : Broker * World) (i : Z)
  : Result unit * (Broker * World) :=
  let '(b, w) := bw in
  let w := with_idx w i in
  let '(b, w, os) := serve b w (skipn (served b) (submitted w)) in
  let value := (getcash b + inject_Z (position_size w) * price_at w 0)%Q in
  let '(r, w) := (notify_all os ;;
                  notify_cashvalue (getcash b) (Qred value) ;;
                  when (warm <=? i) next) w in
  (r, (b, w)).

(** The bars in turn, up to the first exception. *)
Fixpoint bars (warm : Z) (bw : Broker * World) (ixs : list Z)
  : Result unit * (Broker * World) :=
  match ixs with
  | [] => (Ok tt, bw)
  | i :: ixs' =>
      match bar warm bw i with
      | (Ok _, bw') => bars warm bw' ixs'
      | (Raise e, bw') => (Raise e, bw')
      end
  end.

(** The instance before [__init__] ran; every field is assigned
    there. *)
Definition blank (c : Class) (p : Params.t) : Strategy :=
  {| cls := c; params := p; init_cash := 0; buy_prop := 0;
     sell_prop := 0; execution_type := ""; periodic_logging := false;
     transaction_logging := false; order := None; buyprice := None;
     buycomm := None; len_data := 0; cash := None; value := None;
     bar_executed := None; rsi_upper := None; rsi_lower := None |}.

(** The world once the feed is preloaded: the buffers are full and the
    cursor is back at -1. *)
Definition preloaded (f : Feed) (c : Class) (p : Params.t) : World :=
  {| dataclose := close f; dataopen := open f; rsi := rsi_values f;
     crossover := crossover_values f; idx := -1; position_size := 0;
     submitted := []; stdout := []; self := blank c p |}.

(** [cerebro.run()] from the preloaded world [w]: the strategy is
    instantiated and the bars are delivered. *)
Definition run (b : Broker) (warm : Z) (w : World)
               (c : Class) (p : Params.t)
  : Result unit * (Broker * World) :=
  match __init__ c p w with
  | (Raise e, w') => (Raise e, (b, w'))
  | (Ok _, w') =>
      bars warm (b, w')
           (map Z.of_nat (seq 0 (List.length (dataclose w'))))
  end.

End Cerebro.

(** ** backtest *)

(** [d[key]] on a dict given by its items. *)
Fixpoint dict_getitem {A : Type} (d : list (string * A)) (key : string)
  : option A :=
  match d with
  | [] => None
  | (k, v) :: d' => if String.eqb k key then Some v else dict_getitem d' key
  end.

Definition STRATEGY_MAPPING : list (string * Class) :=
  [("rsi", RSIStrategy); ("smac", SMACStrategy); ("base", BaseStrategy)]%string.

(** The column of each line in the data, [None] for a line the data does
    not have. *)
Record Columns := {
  col_datetime : option nat;
  col_open : option nat;
  col_high : option nat;
  col_low : option nat;
  col_close : option nat;
  col_volume : option nat;
  col_openinterest : option nat
}.

Definition DATA_FORMAT_MAPPING : list (string * Columns) :=
  [("dcv"%string,
    {| col_datetime := Some 0%nat; col_open := None; col_high := None;
       col_low := None; col_close := Some 1%nat; col_volume := Some 2%nat;
       col_openinterest := None |})].

(** The keyword arguments [backtest] passes on to the strategy: a value
    for each parameter the caller names. *)
Module Kwargs.
Record t := {
  buy_prop : option Q;
  sell_prop : option Q;
  execution_type : option string;
  periodic_logging : option bool;
  transaction_logging : option bool;
  rsi_period : option Z;
  rsi_upper : option Q;
  rsi_lower : option Q;
  fast_period : option Z;
  slow_period : option Z
}.

Definition none : t :=
  {| buy_prop := None; sell_prop := None; execution_type := None;
     periodic_logging := None; transaction_logging := None;
     rsi_period := None; rsi_upper := None; rsi_lower := None;
     fast_period := None; slow_period := None |}.
End Kwargs.

Definition or_default {A : Type} (given : option A) (default : A) : A :=
  match given with Some a => a | None => default end.

(** The params of the instance that
    [addstrategy(cls, init_cash=init_cash, **kwargs)] creates: the
    defaults of the class, overridden by what is given. *)
Definition strategy_params (init_cash : Q) (kw : Kwargs.t) : Params.t :=
  let d := Params.default in
  {| Params.init_cash := init_cash;
     Params.buy_prop := or_default (Kwargs.buy_prop kw) (Params.buy_prop d);
     Params.sell_prop := or_default (Kwargs.sell_prop kw) (Params.sell_prop d);
     Params.execution_type :=
       or_default (Kwargs.execution_type kw) (Params.execution_type d);
     Params.periodic_logging :=
       or_default (Kwargs.periodic_logging kw) (Params.periodic_logging d);
     Params.transaction_logging :=
       or_default (Kwargs.transaction_logging kw)
                  (Params.transaction_logging d);
     Params.rsi_period :=
       or_default (Kwargs.rsi_period kw) (Params.rsi_period d);
     Params.rsi_upper := or_default (Kwargs.rsi_upper kw) (Params.rsi_upper d);
     Params.rsi_lower := or_default (Kwargs.rsi_lower kw) (Params.rsi_lower d);
     Params.fast_period :=
       or_default (Kwargs.fast_period kw) (Params.fast_period d);
     Params.slow_period :=
       or_default (Kwargs.slow_period kw) (Params.slow_period d) |}.

(** What the indicators of backtrader compute from the data; their
    arithmetic is not part of the file. *)
Record Indicators := {
  ind_rsi : list Q;
  ind_crossover : list Q;
  ind_warmup : Z
}.

(** [bt.feeds.PandasData(dataname=data, **columns)]: [data] is the frame
    as its list of numeric columns.  A line without a column holds NaN
    in backtrader; NaN is not modelled and such a line is left empty, so
    that reading it raises at the read instead of at the [int(...)] that
    follows it. *)
Definition PandasData (data : list (list Q)) (cols : Columns)
                      (ind : Indicators) : Cerebro.Feed :=
  let column c := match c with
                  | Some k => nth k data []
                  | None => []
                  end in
  {| Cerebro.close := column (col_close cols);
     Cerebro.open := column (col_open cols);
     Cerebro.rsi_values := ind_rsi ind;
     Cerebro.crossover_values := ind_crossover ind;
     Cerebro.warmup := ind_warmup ind |}.

(** [backtest], lines 315-353, without the plot.  The outcome is the
    result of the call and, once [cerebro.run()] was entered, the broker
    and the world it ended in. *)
Definition backtest (strategy : string) (data : list (list Q))
                    (ind : Indicators) (commission init_cash : Q)
                    (data_format : string) (kwargs : Kwargs.t)
  : Result unit * option (Cerebro.Broker * World) :=
  match dict_getitem STRATEGY_MAPPING strategy with
  | None => (Raise (Py.KeyError strategy), None)
  | Some c =>
      let p := strategy_params init_cash kwargs in
      match dict_getitem DATA_FORMAT_MAPPING data_format with
      | None => (Raise (Py.KeyError data_format), None)
      | Some cols =>
          let f := PandasData data cols ind in
          let b := {| Cerebro.getcash := init_cash;
                      Cerebro.commission := commission;
                      Cerebro.served := 0 |} in
          let w := with_stdout (Cerebro.preloaded f c p)
                               [PrintStartingPortfolioValue init_cash] in
          match Cerebro.run b (Cerebro.warmup f) w c p with
          | (Raise e, bw) => (Raise e, Some bw)
          | (Ok _, (b', w')) =>
              let v := (Cerebro.getcash b'
                        + inject_Z (position_size w')
                          * last (dataclose w') 0)%Q in
              (Ok tt,
               Some (b', with_stdout w'
                           (stdout w' ++ [PrintFinalPortfolioValue v])))
          end
      end
  end.

(** ** Notions the statements use *)



(** A frame of four bars at the price 100: the columns are the date,
    the close and the volume. *)
Definition flat_data : list (list Q) :=
  [ [0; 1; 2; 3]; [100; 100; 100; 100]; [5; 5; 5; 5] ]%Q.

Definition no_indicators : Indicators :=
  {| ind_rsi := []; ind_crossover := []; ind_warmup := 0 |}.

(** A [BaseStrategy] instance with the default parameters, in the state
    given by its pending order, cash, value and [len_data]. *)
Definition base_strategy (exec : string) (tlog : bool)
                         (o : option bt.Order) (c v : Q) (n : Z) : Strategy :=
  {| cls := BaseStrategy; params := Params.default;
     init_cash := INIT_CASH; buy_prop := BUY_PROP; sell_prop := SELL_PROP;
     execution_type := exec; periodic_logging := false;
     transaction_logging := tlog; order := o; buyprice := None;
     buycomm := None; len_data := n; cash := Some c; value := Some v;
     bar_executed := None; rsi_upper := None; rsi_lower := None |}.

(** The world of a strategy on bar [i] of a feed, holding [pos] units. *)
Definition at_bar (closes opens : list Q) (i pos : Z) (s : Strategy) : World :=
  {| dataclose := closes; dataopen := opens; rsi := []; crossover := [];
     idx := i; position_size := pos; submitted := []; stdout := [];
     self := s |}.

Definition buy_order (n : Z) : bt.Order :=
  {| bt.isbuy := true; bt.size := n; bt.exectype := bt.Market;
     bt.status := bt.Submitted; bt.executed := bt.no_execution |}.

Definition sell_order (n : Z) (e : bt.ExecType) : bt.Order :=
  {| bt.isbuy := false; bt.size := n; bt.exectype := e;
     bt.status := bt.Submitted; bt.executed := bt.no_execution |}.

(** What the callbacks of one bar never change: the lines and their
    cursor, the position, and the strategy object but for its pending
    order. *)
Definition view (w : World)
  : list Q * list Q * list Q * list Q * Z * Z * Strategy :=
  (dataclose w, dataopen w, rsi w, crossover w, idx w, position_size w,
   set_order (self w) None).

(** The instance with another [sell_prop]. *)
Definition set_sell_prop (s : Strategy) (q : Q) : Strategy :=
  {| cls := cls s; params := params s; init_cash := init_cash s;
     buy_prop := buy_prop s; sell_prop := q;
     execution_type := execution_type s;
     periodic_logging := periodic_logging s;
     transaction_logging := transaction_logging s;
     order := order s;
     buyprice := buyprice s; buycomm := buycomm s; len_data := len_data s;
     cash := cash s; value := value s; bar_executed := bar_executed s;
     rsi_upper := rsi_upper s; rsi_lower := rsi_lower s |}.

(** The orders one call of [next] adds to the broker's queue. *)
Definition placed (w : World) (os : list bt.Order) : Prop :=
  submitted (snd (next w)) = submitted w ++ os.

(** A partly invested [BaseStrategy] on the first of three bars: 500 in
    cash and ten units worth 1000. *)
Definition partly_invested : World :=
  at_bar [100; 100; 100]%Q [] 0 10
         (base_strategy "close" true None 500 1500 4).

(** A three-bar feed at the price 100, preloaded for a [BaseStrategy]. *)
Definition three_bars : World :=
  Cerebro.preloaded
    {| Cerebro.close := [100; 100; 100]%Q; Cerebro.open := [];
       Cerebro.rsi_values := []; Cerebro.crossover_values := [];
       Cerebro.warmup := 0 |} BaseStrategy Params.default.

(** A strategy on bar [i] of that feed with all its cash, no units and
    the pending order [o]. *)
Definition on_three_bars (i : Z) (o : option bt.Order) : World :=
  at_bar [100; 100; 100]%Q [] i 0
         (base_strategy "close" true o 100000 100000 4).


(** A [BaseStrategy] that holds ten units worth 1000 next to 50 in
    cash, too little for a buy, under the execution type [exec]; the
    feed has an open column. *)
Definition holding (exec : string) : World :=
  at_bar [100; 100; 100]%Q [100; 100; 100]%Q 0 10
         (base_strategy exec true None 50 1050 4).

(** An order that the broker refused or dropped, and a strategy with
    transaction logging off that waits for it. *)
Definition refused (s : bt.Status) : bt.Order :=
  bt.with_status (buy_order 5) s bt.no_execution.

Definition quiet : World :=
  at_bar [100; 100; 100]%Q [] 1 0
         (base_strategy "close" false (Some (buy_order 5)) 100 100 4).

(** The lines [notify_order] prints for a refused order. *)
Definition refusal_lines (s : bt.Status) : list Out :=
  [LogOrderCanceledMarginRejected;
   LogCanceled (bt.status_eqb s bt.Canceled);
   LogMargin (bt.status_eqb s bt.Margin);
   LogRejected (bt.status_eqb s bt.Rejected)].


(** What the constructor leaves behind on a preloaded feed. *)
Record Constructed (c : Class) (p : Params.t) (w w' : World) : Prop := {
  ctor_len_data :
    len_data (self w') = Z.of_nat (List.length (dataclose w)) + 1;
  ctor_order : order (self w') = None;
  ctor_cls : cls (self w') = c;
  ctor_params : params (self w') = p;
  ctor_buy_prop : buy_prop (self w') = Params.buy_prop p;
  ctor_sell_prop : sell_prop (self w') = Params.sell_prop p;
  ctor_init_cash : init_cash (self w') = Params.init_cash p;
  ctor_execution_type : execution_type (self w') = Params.execution_type p;
  ctor_dataclose : dataclose w' = dataclose w;
  ctor_dataopen : dataopen w' = dataopen w;
  ctor_idx : idx w' = idx w;
  ctor_submitted : submitted w' = submitted w
}.

(** ** Notions for the orders of a bar *)

(** The order [o] is the buy that the buy branch places in the world
    [w]: the cash covers the close, the buy signal is true, and the size
    is the non-zero [final_size]. *)
Definition bought (w : World) (o : bt.Order) : Prop :=
  exists c close0 n,
    cash (self w) = Some c
    /\ Py.getitem (dataclose w) (idx w) = Some close0
    /\ (close0 <= c)%Q
    /\ fst (buy_signal w) = Ok true
    /\ fst (final_size c close0 w) = Ok n
    /\ n <> 0
    /\ o = buy_order (Z.abs n).

(** The size of line 223. *)
Definition open_sell_size (w : World) (open1 : Q) : Z :=
  Py.int (init_cash (self w) / open1 * sell_prop (self w)).

(** The order [o] is the sell that the sell branch places in the world
    [w]: the stock value is positive, the sell signal is true, and the
    order is the one of line 209 or of line 222. *)
Definition sold (w : World) (o : bt.Order) : Prop :=
  exists v c,
    value (self w) = Some v
    /\ cash (self w) = Some c
    /\ (0 < v - c)%Q
    /\ fst (sell_signal w) = Ok true
    /\ ((execution_type (self w) = "close"%string
         /\ position_size w <> 0
         /\ o = sell_order (Z.abs (position_size w)) bt.Close)
        \/ (execution_type (self w) <> "close"%string
            /\ exists open1,
                 Py.getitem (dataopen w) (idx w + 1) = Some open1
                 /\ ~ (open1 == 0)%Q
                 /\ open_sell_size w open1 <> 0
                 /\ o = sell_order (Z.abs (open_sell_size w open1))
                                   bt.Market)).

(** What no callback other than [next] changes: the lines with their
    cursor, the position, the broker's queue and [len_data]. *)
Definition market (w : World)
  : list Q * list Q * list Q * list Q * Z * Z * list bt.Order * Z :=
  (dataclose w, dataopen w, rsi w, crossover w, idx w, position_size w,
   submitted w, len_data (self w)).

(** The first bar of a three-bar feed for a freshly constructed
    [RSIStrategy] with the default bounds, the RSI standing at [r]. *)
Definition rsi_bar (r : Q) : World :=
  with_idx
    (snd (__init__ RSIStrategy Params.default
            (Cerebro.preloaded
               {| Cerebro.close := [100; 100; 100]%Q; Cerebro.open := [];
                  Cerebro.rsi_values := [r; r; r];
                  Cerebro.crossover_values := []; Cerebro.warmup := 0 |}
               RSIStrategy Params.default)))
    0.


(** The configuration of a strategy: what [__init__] sets from the
    parameters and the feed, as opposed to the state the callbacks keep
    (pending order, cost basis, cash, value, bar of execution). *)
Definition config (s : Strategy) :=
  (cls s, params s, init_cash s, buy_prop s, sell_prop s, execution_type s,
   periodic_logging s, transaction_logging s, len_data s,
   rsi_upper s, rsi_lower s).

(** ** Tactics for running the monad *)

(** The operations of the monad, unfolded. *)
Ltac run_monad :=
  unfold when, log, print, put_self, getattr, truediv, line_getitem,
         broker_submit, bind, get, ret, raise in *.

(** Case analysis on an innermost scrutinee of the goal. *)
Ltac split_match :=
  match goal with
  | |- context [match ?x with _ => _ end] =>
      lazymatch x with
      | context [match _ with _ => _ end] => fail
      | _ => destruct x eqn:?
      end
  end.

(** Case analysis on an innermost scrutinee of a hypothesis. *)
Ltac split_match_in H :=
  match type of H with
  | context [match ?x with _ => _ end] =>
      lazymatch x with
      | context [match _ with _ => _ end] => fail
      | _ => destruct x eqn:?
      end
  end.

(** The run ended: the hypothesis pairs a result with the final world. *)
Ltac finished H := inversion H; subst; clear H; simpl.


(** * Properties *)

(** ** Sizing arithmetic *)












(** ** Line buffers and the length [__init__] records *)

Lemma getitem_nonneg {A : Type} (l : list A) (i : Z) :
  0 <= i -> Py.getitem l i = nth_error l (Z.to_nat i).
Proof.
  intros H. unfold Py.getitem.
  destruct (i <? 0) eqn:E; [apply Z.ltb_lt in E; lia | reflexivity].
Qed.

Lemma getitem_in_range {A : Type} (l : list A) (i : Z) :
  0 <= i < Z.of_nat (List.length l) -> exists x, Py.getitem l i = Some x.
Proof.
  intros H. rewrite getitem_nonneg by lia.
  destruct (nth_error l (Z.to_nat i)) eqn:E; [eauto|].
  apply nth_error_None in E. lia.
Qed.

Lemma skipn_cons_nth_error {A : Type} (l : list A) (k : nat) (x : A) :
  nth_error l k = Some x -> skipn k l = x :: skipn (S k) l.
Proof.
  revert k. induction l as [|y l IH]; intros [|k] E; simpl in *;
    try discriminate; [congruence | now apply IH].
Qed.

(** Walking a buffer whose cursor is at -1, from item [k + 1] on: the
    items are the buffer from position [k]. *)
Lemma list_from_cursor (l : list Q) (fuel k : nat) :
  (List.length l - k < fuel)%nat ->
  Py.list_ fuel (fun i => Py.getitem l (-1 + i)) (Z.of_nat k + 1)
  = Some (skipn k l).
Proof.
  revert k. induction fuel as [|fuel IH]; intros k H; [lia|].
  cbn [Py.list_]. rewrite getitem_nonneg by lia.
  replace (Z.to_nat (-1 + (Z.of_nat k + 1))) with k by lia.
  destruct (nth_error l k) as [x|] eqn:E.
  - replace (Z.of_nat k + 1 + 1) with (Z.of_nat (S k) + 1) by lia.
    assert (k < List.length l)%nat by (apply nth_error_Some; congruence).
    rewrite IH by lia. cbn [option_map].
    now rewrite (skipn_cons_nth_error l k x E).
  - apply nth_error_None in E. now rewrite skipn_all2.
Qed.

(** [list(self.datas[0])] on a preloaded feed of [N >= 1] bars has
    [N + 1] items: item 0 is read at index -1, the last bar. *)
Lemma list_datas0_preloaded (w : World) :
  idx w = -1 -> dataclose w <> [] ->
  exists l, list_datas0 w = (Ok l, w)
            /\ Z.of_nat (List.length l) = Z.of_nat (List.length (dataclose w)) + 1.
Proof.
  intros Hidx Hne. unfold list_datas0, bind, get. rewrite Hidx.
  set (l := dataclose w) in *.
  assert (HN : (0 < List.length l)%nat) by (destruct l; [congruence | simpl; lia]).
  replace (List.length l + 2)%nat with (S (List.length l + 1)) by lia.
  cbn [Py.list_].
  assert (Hlast : exists x, Py.getitem l (-1 + 0) = Some x).
  { unfold Py.getitem. change (-1 + 0 <? 0) with true. cbv iota.
    destruct (-1 + 0 + Z.of_nat (List.length l) <? 0) eqn:E;
      [apply Z.ltb_lt in E; lia|].
    destruct (nth_error l (Z.to_nat (-1 + 0 + Z.of_nat (List.length l))))
      as [x|] eqn:E'; [now exists x|].
    apply nth_error_None in E'. lia. }
  destruct Hlast as [x Hx]. rewrite Hx.
  change (0 + 1) with (Z.of_nat 0 + 1).
  rewrite list_from_cursor by lia. simpl.
  eexists. split; [reflexivity|]. simpl. lia.
Qed.

Lemma BaseStrategy__init__preloaded (c : Class) (p : Params.t) (w : World) :
  idx w = -1 -> dataclose w <> [] ->
  exists w', BaseStrategy__init__ c p w = (Ok tt, w')
             /\ Constructed c p w w' /\ position_size w' = position_size w
             /\ rsi w' = rsi w /\ crossover w' = crossover w.
Proof.
  intros Hidx Hne. unfold BaseStrategy__init__, bind, print.
  match goal with
  | |- context [list_datas0 ?w1] =>
      destruct (list_datas0_preloaded w1) as [l [Hl Hlen]];
      [exact Hidx | exact Hne | rewrite Hl]
  end.
  unfold put_self. eexists. split; [reflexivity|].
  split; [constructor; simpl; auto | simpl; auto].
Qed.

Lemma __init__preloaded (c : Class) (p : Params.t) (w : World) :
  idx w = -1 -> dataclose w <> [] ->
  exists w', __init__ c p w = (Ok tt, w') /\ Constructed c p w w'.
Proof.
  intros Hidx Hne.
  destruct c; unfold __init__, RSIStrategy__init__, SMACStrategy__init__, bind.
  - destruct (BaseStrategy__init__preloaded BaseStrategy p w Hidx Hne)
      as [w' [E [H _]]]. eauto.
  - destruct (BaseStrategy__init__preloaded RSIStrategy p w Hidx Hne)
      as [w' [E [H _]]]. rewrite E. unfold get, put_self, print. simpl.
    eexists. split; [reflexivity|]. destruct H. constructor; simpl; auto.
  - destruct (BaseStrategy__init__preloaded SMACStrategy p w Hidx Hne)
      as [w' [E [H _]]]. rewrite E. unfold print.
    eexists. split; [reflexivity|]. destruct H. constructor; simpl; auto.
Qed.

(** ** What the two branches of [next] do to the world *)

Lemma buy_signal_world (w : World) : snd (buy_signal w) = w.
Proof.
  unfold buy_signal. run_monad.
  destruct (cls (self w)); repeat split_match; reflexivity.
Qed.

Lemma sell_signal_world (w : World) : snd (sell_signal w) = w.
Proof.
  unfold sell_signal. run_monad.
  destruct (cls (self w)); repeat split_match; reflexivity.
Qed.

(** The signals read the class, the indicator lines, the cursor and the
    bounds, all of them in the [view]. *)
Lemma signals_view (w w' : World) :
  view w = view w' ->
  fst (buy_signal w) = fst (buy_signal w')
  /\ fst (sell_signal w) = fst (sell_signal w').
Proof.
  unfold view. intros H. inversion H. clear H.
  unfold buy_signal, sell_signal. run_monad.
  match goal with E : cls _ = cls _ |- _ => rewrite E end.
  split; destruct (cls (self w')); cbv beta iota;
    repeat match goal with
           | E : ?f w = ?f w' |- _ => rewrite E; clear E
           | E : ?f (self w) = ?f (self w') |- _ => rewrite E; clear E
           end;
    repeat split_match; reflexivity.
Qed.

Lemma final_size_world (c close0 : Q) (w : World) :
  view (snd (final_size c close0 w)) = view w
  /\ submitted (snd (final_size c close0 w)) = submitted w
  /\ order (self (snd (final_size c close0 w))) = order (self w).
Proof.
  unfold final_size, afforded_size. run_monad.
  repeat split_match; simpl; auto.
Qed.

(** The buy branch leaves the [view] alone and hands the broker at most
    one order: a buy, on a true buy signal. *)
Lemma buy_branch_effect (w w' : World) (r : Result unit) :
  buy_branch w = (r, w') ->
  view w' = view w
  /\ (submitted w' = submitted w
      \/ exists o,
           submitted w' = submitted w ++ [o]
           /\ bt.isbuy o = true
           /\ order (self w') = Some o
           /\ fst (buy_signal w) = Ok true).
Proof.
  intros H. unfold buy_branch in H. run_monad. cbv beta iota in H.
  destruct (cash (self w)) as [c|]; [|finished H; auto].
  destruct (Py.getitem (dataclose w) (idx w + 0)) as [close0|];
    [|finished H; auto].
  destruct (Qle_bool close0 c); [|finished H; auto].
  pose proof (buy_signal_world w) as Hs.
  destruct (buy_signal w) as [[[|]|e] w2] eqn:Eb; simpl in Hs; subst w2;
    [|finished H; auto|finished H; auto].
  destruct (transaction_logging (self w)); cbv beta iota in H;
    match type of H with
    | context [final_size c close0 ?w3] =>
        destruct (final_size_world c close0 w3) as [Hv [Hsub Hord]];
        destruct (final_size c close0 w3) as [[n|e] w4]
    end; simpl in Hv, Hsub, Hord;
    try (finished H; split; [assumption | left; assumption]);
    unfold buy in H; run_monad; destruct (n =? 0); finished H;
    try (split; [assumption | left; assumption]);
    (split; [|right; eexists; repeat split; try reflexivity]);
    first [exact Hv | simpl; congruence].
Qed.

(** The sell branch leaves the [view] alone and hands the broker at most
    one order: a sell, on a true sell signal. *)
Lemma sell_branch_effect (w w' : World) (r : Result unit) :
  sell_branch w = (r, w') ->
  view w' = view w
  /\ (submitted w' = submitted w
      \/ exists o,
           submitted w' = submitted w ++ [o]
           /\ bt.isbuy o = false
           /\ order (self w') = Some o
           /\ fst (sell_signal w) = Ok true).
Proof.
  intros H. unfold sell_branch in H. run_monad. cbv beta iota in H.
  destruct (value (self w)) as [v|]; [|finished H; auto].
  destruct (cash (self w)) as [c|]; [|finished H; auto].
  destruct (Qltb 0 (v - c)); [|finished H; auto].
  pose proof (sell_signal_world w) as Hs.
  destruct (sell_signal w) as [[[|]|e] w2] eqn:Eb; simpl in Hs; subst w2;
    [|finished H; auto|finished H; auto].
  unfold sell in H. run_monad.
  repeat (split_match_in H; cbv beta iota in H);
    finished H;
    first [ split; [reflexivity | left; reflexivity]
          | split; [reflexivity | right; eexists; repeat split; reflexivity] ].
Qed.


(** ** The guards of [next] *)

(** The periodic prints touch the printed output only. *)
Lemma log_close_effect (w w1 : World) (r : Result unit) :
  log_close w = (r, w1) ->
  view w1 = view w /\ submitted w1 = submitted w /\ self w1 = self w
  /\ (periodic_logging (self w) = false -> r = Ok tt /\ w1 = w)
  /\ (0 <= idx w < Z.of_nat (List.length (dataclose w)) -> r = Ok tt).
Proof.
  intros H. unfold log_close in H. run_monad. cbv beta iota in H.
  destruct (periodic_logging (self w)).
  - destruct (Py.getitem (dataclose w) (idx w + 0)) as [x|] eqn:Ex;
      finished H; repeat split; try discriminate; auto.
    intros Hbar. rewrite Z.add_0_r in Ex.
    destruct (getitem_in_range _ _ Hbar). congruence.
  - finished H. repeat split; auto.
Qed.

Lemma log_position_effect (w w1 : World) (r : Result unit) :
  log_position w = (r, w1) ->
  r = Ok tt /\
  view w1 = view w /\ submitted w1 = submitted w /\ self w1 = self w.
Proof.
  intros H. unfold log_position in H. run_monad. cbv beta iota in H.
  destruct (periodic_logging (self w)); finished H; auto.
Qed.

Lemma guard_final_bar (w : World) (N : Z) :
  len_data (self w) = N + 1 ->
  (last_bar_guard w = true <-> N - 1 <= idx w).
Proof.
  intros H. unfold last_bar_guard. rewrite H, Z.leb_le. lia.
Qed.

Lemma view_position (w w' : World) :
  view w' = view w -> position_size w' = position_size w /\ idx w' = idx w.
Proof. unfold view. intros H. inversion H. auto. Qed.

(** [next] when one of its two guards holds. *)
Lemma next_guarded (w : World) :
  order (self w) <> None \/ last_bar_guard w = true ->
  0 <= idx w < Z.of_nat (List.length (dataclose w)) ->
  fst (next w) = Ok tt
  /\ submitted (snd (next w)) = submitted w
  /\ self (snd (next w)) = self w
  /\ position_size (snd (next w)) = position_size w
  /\ (periodic_logging (self w) = false -> next w = (Ok tt, w)).
Proof.
  intros Hg Hbar. destruct (next w) as [r' w'] eqn:En.
  unfold next in En. unfold bind at 1 in En.
  destruct (log_close w) as [r w1] eqn:E1.
  destruct (log_close_effect _ _ _ E1) as [Hv [Hsub [Hself [Hoff Hok]]]].
  rewrite (Hok Hbar) in En. unfold bind at 1 in En. unfold get in En.
  destruct (view_position _ _ Hv) as [Hp Hi].
  assert (E : (order (self w1) <> None \/ last_bar_guard w1 = true)).
  { rewrite Hself. unfold last_bar_guard in *. rewrite Hself, Hi. exact Hg. }
  assert (En' : (Ok tt, w1) = (r', w')).
  { destruct (order (self w1)); [exact En|].
    destruct E as [E|E]; [congruence|]. rewrite E in En. exact En. }
  inversion En'; subst. simpl. repeat split; auto.
  intros Hoff'. destruct (Hoff Hoff') as [_ Hw]. congruence.
Qed.

(** C1.  When [next] is entered with a pending order it returns at once:
    nothing is handed to the broker, and the strategy object (the
    pending order, cash, value, cost basis) and the position are as
    before.  With periodic logging off the world is untouched. *)
Theorem next_pending_order_returns (w : World) (o : bt.Order) :
  order (self w) = Some o ->
  0 <= idx w < Z.of_nat (List.length (dataclose w)) ->
  fst (next w) = Ok tt
  /\ submitted (snd (next w)) = submitted w
  /\ self (snd (next w)) = self w
  /\ position_size (snd (next w)) = position_size w
  /\ (periodic_logging (self w) = false -> next w = (Ok tt, w)).
Proof.
  intros Ho Hbar. apply next_guarded; [left; congruence | assumption].
Qed.

(** A bar entered with a buy of 991 pending, through the theorem. *)
Lemma next_pending_order_returns_witness :
  next (on_three_bars 1 (Some (buy_order 991)))
  = (Ok tt, on_three_bars 1 (Some (buy_order 991))).
Proof.
  apply (next_pending_order_returns _ (buy_order 991));
    [reflexivity | simpl; lia | reflexivity].
Defined.

(** C3.  On a feed of [N] bars, with [len_data] as the constructor
    recorded it on the preloaded feed: the guard of line 153 holds on
    the final bar and on no other; on the final bar [next] returns
    without handing anything to the broker; on every earlier bar, with
    no order pending, [next] goes on to the buy and sell decisions. *)
Theorem decisions_on_all_but_final_bar
        (c : Class) (p : Params.t) (w0 w : World) :
  idx w0 = -1 ->
  dataclose w = dataclose w0 ->
  len_data (self w) = len_data (self (snd (__init__ c p w0))) ->
  0 <= idx w < Z.of_nat (List.length (dataclose w0)) ->
  fst (__init__ c p w0) = Ok tt
  /\ (last_bar_guard w = true
      <-> idx w = Z.of_nat (List.length (dataclose w0)) - 1)
  /\ (idx w = Z.of_nat (List.length (dataclose w0)) - 1 ->
      fst (next w) = Ok tt
      /\ submitted (snd (next w)) = submitted w
      /\ self (snd (next w)) = self w)
  /\ (idx w < Z.of_nat (List.length (dataclose w0)) - 1 ->
      order (self w) = None ->
      next w = (log_close ;; log_position ;; buy_branch ;; sell_branch) w).
Proof.
  intros Hidx0 Hclose Hlen Hbar.
  assert (Hne : dataclose w0 <> []).
  { intros E. rewrite E in Hbar. simpl in Hbar. lia. }
  destruct (__init__preloaded c p w0 Hidx0 Hne) as [w1 [E HC]].
  rewrite E in *. simpl in Hlen. rewrite (ctor_len_data _ _ _ _ HC) in Hlen.
  pose proof (guard_final_bar w _ Hlen) as Hg.
  split; [reflexivity|]. split; [rewrite Hg; lia|]. split.
  - intros Hlast.
    assert (Hgt : last_bar_guard w = true) by (apply Hg; lia).
    assert (Hbar' : 0 <= idx w < Z.of_nat (List.length (dataclose w)))
      by (rewrite Hclose; lia).
    destruct (next_guarded w (or_intror Hgt) Hbar') as [H1 [H2 [H3 _]]].
    auto.
  - intros Hearly Eo.
    assert (Hgf : last_bar_guard w = false).
    { destruct (last_bar_guard w); [|reflexivity].
      assert (Z.of_nat (List.length (dataclose w0)) - 1 <= idx w)
        by now apply Hg.
      lia. }
    unfold next. unfold bind at 1 5.
    destruct (log_close w) as [r w2] eqn:E1.
    destruct (log_close_effect _ _ _ E1) as [Hv [_ [Hself _]]].
    destruct r as [[]|e]; [|reflexivity].
    unfold bind at 1. unfold get. rewrite Hself, Eo.
    unfold last_bar_guard in *.
    destruct (view_position _ _ Hv) as [_ Hi]. rewrite Hself, Hi, Hgf.
    reflexivity.
Qed.

(** The three-bar feed, through the theorem: the guard holds on bar 2,
    the final one, and not on bar 1. *)
Lemma decisions_on_all_but_final_bar_witness :
  (last_bar_guard (on_three_bars 2 None) = true <-> 2 = 3 - 1)
  /\ (last_bar_guard (on_three_bars 1 None) = true <-> 1 = 3 - 1).
Proof.
  split.
  - apply (decisions_on_all_but_final_bar BaseStrategy Params.default
             three_bars (on_three_bars 2 None));
      [reflexivity | reflexivity | reflexivity | simpl; lia].
  - apply (decisions_on_all_but_final_bar BaseStrategy Params.default
             three_bars (on_three_bars 1 None));
      [reflexivity | reflexivity | reflexivity | simpl; lia].
Defined.

(** ** Orders per bar *)

Lemma Qltb_lt (x y : Q) : Qltb x y = true <-> (x < y)%Q.
Proof.
  unfold Qltb. rewrite negb_true_iff. split; intros H.
  - apply Qnot_le_lt. intros Hle. apply Qle_bool_iff in Hle. congruence.
  - destruct (Qle_bool y x) eqn:E; [|reflexivity].
    apply Qle_bool_iff in E. exfalso. eapply Qlt_not_le; eauto.
Qed.

(** [next] hands the broker nothing, one order, or a buy followed by a
    sell; the latter only when both signals are true. *)
Lemma next_effect (w : World) :
  exists os,
    placed w os
    /\ (os = []
        \/ (exists o, os = [o])
        \/ (exists b s,
              os = [b; s] /\ bt.isbuy b = true /\ bt.isbuy s = false
              /\ fst (buy_signal w) = Ok true
              /\ fst (sell_signal w) = Ok true)).
Proof.
  unfold placed. destruct (next w) as [r' w'] eqn:En. simpl.
  unfold next in En. unfold bind at 1 in En.
  destruct (log_close w) as [r w1] eqn:E1.
  destruct (log_close_effect _ _ _ E1) as [Hv1 [Hs1 _]].
  destruct r as [[]|e];
    [|finished En; exists []; rewrite app_nil_r; auto].
  unfold bind at 1 in En. unfold get in En.
  destruct (order (self w1));
    [finished En; exists []; rewrite app_nil_r; auto|].
  destruct (last_bar_guard w1);
    [finished En; exists []; rewrite app_nil_r; auto|].
  unfold bind at 1 in En.
  destruct (log_position w1) as [r w2] eqn:E2.
  destruct (log_position_effect _ _ _ E2) as [Hr [Hv2 [Hs2 _]]]. subst r.
  unfold bind in En.
  destruct (buy_branch w2) as [[[]|e] w3] eqn:Eb;
    destruct (buy_branch_effect _ _ _ Eb) as [Hv3 Hb].
  - destruct (sell_branch_effect _ _ _ En) as [Hv4 Hsell].
    assert (Hsig2 : view w2 = view w) by congruence.
    assert (Hsig3 : view w3 = view w) by congruence.
    apply signals_view in Hsig2. apply signals_view in Hsig3.
    destruct Hsig2 as [Hb2 _]. destruct Hsig3 as [_ Hs3].
    destruct Hb as [Hb|[b [Hb [Hbb [_ Hbs]]]]];
      destruct Hsell as [Hsell|[s [Hsell [Hss [_ Hsig]]]]].
    + exists []. rewrite app_nil_r. split; [congruence | auto].
    + exists [s]. split; [congruence | eauto].
    + exists [b]. split; [congruence | eauto].
    + exists [b; s]. split.
      * rewrite Hsell, Hb, Hs2, Hs1, <- app_assoc. reflexivity.
      * right. right. exists b, s. repeat split; congruence.
  - finished En. destruct Hb as [Hb|[b [Hb _]]].
    + exists []. rewrite app_nil_r. split; [congruence | auto].
    + exists [b]. split; [congruence | eauto].
Qed.

(** The signals of the crossover strategy exclude each other. *)
Lemma SMAC_signals_exclusive (w : World) :
  cls (self w) = SMACStrategy ->
  fst (buy_signal w) = Ok true -> fst (sell_signal w) = Ok true -> False.
Proof.
  intros Hc. unfold buy_signal, sell_signal. run_monad. rewrite Hc.
  destruct (Py.getitem (crossover w) (idx w + 0)) as [x|];
    simpl; intros Hb Hs; [|discriminate].
  injection Hb as Hb. injection Hs as Hs.
  apply Qltb_lt in Hb. apply Qltb_lt in Hs.
  exact (Qlt_irrefl 0 (Qlt_trans _ _ _ Hb Hs)).
Qed.

(** So do the signals of the RSI strategy when the lower bound does not
    exceed the upper one. *)
Lemma RSI_signals_exclusive (w : World) (lo hi : Q) :
  cls (self w) = RSIStrategy ->
  rsi_lower (self w) = Some lo -> rsi_upper (self w) = Some hi ->
  (lo <= hi)%Q ->
  fst (buy_signal w) = Ok true -> fst (sell_signal w) = Ok true -> False.
Proof.
  intros Hc Hlo Hhi Hle. unfold buy_signal, sell_signal. run_monad.
  rewrite Hc, Hlo, Hhi.
  destruct (Py.getitem (rsi w) (idx w + 0)) as [x|];
    simpl; intros Hb Hs; [|discriminate].
  injection Hb as Hb. injection Hs as Hs.
  apply Qltb_lt in Hb. apply Qltb_lt in Hs.
  apply (Qlt_irrefl x).
  eapply Qlt_trans; [exact Hb|]. eapply Qle_lt_trans; eauto.
Qed.

(** C6, as the claim states it, fails: on the partly invested bar the
    buy branch hands the broker a buy of 4 and the sell branch, not
    skipped, a sell of the 10 units held; so some bar sees more than one
    order.  A whole run shows the same: the base strategy on four bars,
    of which the last places nothing, hands the broker five orders. *)
Lemma buy_then_sell_same_bar_counterexample :
  fst (next partly_invested) = Ok tt
  /\ placed partly_invested [buy_order 4; sell_order 10 bt.Close]
  /\ ~ (forall w os, placed w os -> (List.length os <= 1)%nat)
  /\ exists b w,
       backtest "base" flat_data no_indicators COMMISSION_PER_TRANSACTION
                INIT_CASH "dcv" Kwargs.none
       = (Ok tt, Some (b, w))
       /\ map bt.isbuy (submitted w) = [true; true; false; true; false].
Proof.
  assert (H : placed partly_invested [buy_order 4; sell_order 10 bt.Close])
    by (vm_compute; reflexivity).
  split; [vm_compute; reflexivity|]. split; [exact H|]. split.
  - intros Hall. specialize (Hall _ _ H). simpl in Hall. lia.
  - do 2 eexists. split; vm_compute; reflexivity.
Qed.

(** C6, as the code has it.  One call of [next] places nothing, one
    order, or a buy followed by a sell: the sell branch runs whether or
    not the buy branch placed an order, as on the partly invested bar.
    Two orders are placed only when the buy signal and the sell signal
    are both true; when they exclude each other, as for the crossover
    strategy and for the RSI strategy with [rsi_lower <= rsi_upper], at
    most one order is placed. *)
Theorem orders_per_bar (w : World) :
  exists os,
    placed w os
    /\ (os = []
        \/ (exists o, os = [o])
        \/ (exists b s,
              os = [b; s] /\ bt.isbuy b = true /\ bt.isbuy s = false
              /\ fst (buy_signal w) = Ok true
              /\ fst (sell_signal w) = Ok true))
    /\ (cls (self w) = SMACStrategy -> (List.length os <= 1)%nat)
    /\ (forall lo hi,
          cls (self w) = RSIStrategy ->
          rsi_lower (self w) = Some lo -> rsi_upper (self w) = Some hi ->
          (lo <= hi)%Q -> (List.length os <= 1)%nat)
    /\ placed partly_invested [buy_order 4; sell_order 10 bt.Close].
Proof.
  destruct (next_effect w) as [os [Hp Hshape]].
  exists os. split; [exact Hp|]. split; [exact Hshape|].
  split; [|split; [|vm_compute; reflexivity]].
  - intros Hc.
    destruct Hshape as [->|[[o ->]|[b [s [-> [_ [_ [Hb Hs]]]]]]]];
      simpl; try lia.
    exfalso. eapply SMAC_signals_exclusive; eauto.
  - intros lo hi Hc Hlo Hhi Hle.
    destruct Hshape as [->|[[o ->]|[b [s [-> [_ [_ [Hb Hs]]]]]]]];
      simpl; try lia.
    exfalso. eapply RSI_signals_exclusive; eauto.
Qed.

(** The partly invested bar, through the theorem. *)
Lemma orders_per_bar_witness :
  exists os,
    placed partly_invested os
    /\ (os = []
        \/ (exists o, os = [o])
        \/ (exists b s,
              os = [b; s] /\ bt.isbuy b = true /\ bt.isbuy s = false
              /\ fst (buy_signal partly_invested) = Ok true
              /\ fst (sell_signal partly_invested) = Ok true)).
Proof.
  destruct (orders_per_bar partly_invested) as [os [H1 [H2 _]]].
  exists os. split; assumption.
Defined.

(** ** The size of a buy *)

(** The size is computed from the cash, the prices and the [view]. *)
Lemma final_size_view (c close0 : Q) (w w' : World) :
  view w = view w' ->
  fst (final_size c close0 w) = fst (final_size c close0 w').
Proof.
  unfold view. intros H. inversion H. clear H.
  unfold final_size, afforded_size. run_monad. cbv beta iota.
  repeat (repeat match goal with
                 | E : ?f w = ?f w' |- _ => rewrite E
                 | E : ?f (self w) = ?f (self w') |- _ => rewrite E
                 end;
          split_match; cbv beta iota);
    reflexivity.
Qed.










(** ** The size of a sell *)

Lemma sell_signal_sell_prop (w : World) (q : Q) :
  fst (sell_signal (with_self w (set_sell_prop (self w) q)))
  = fst (sell_signal w).
Proof.
  unfold sell_signal. run_monad. simpl.
  destruct (cls (self w)); cbv beta iota; simpl;
    repeat split_match; reflexivity.
Qed.

Lemma sell_branch_close (w : World) (v c : Q) :
  value (self w) = Some v -> cash (self w) = Some c -> (0 < v - c)%Q ->
  fst (sell_signal w) = Ok true ->
  execution_type (self w) = "close"%string ->
  (transaction_logging (self w) = true ->
   exists close1, Py.getitem (dataclose w) (idx w + 1) = Some close1) ->
  0 < position_size w ->
  fst (sell_branch w) = Ok tt
  /\ submitted (snd (sell_branch w))
     = submitted w ++ [sell_order (position_size w) bt.Close]
  /\ order (self (snd (sell_branch w)))
     = Some (sell_order (position_size w) bt.Close).
Proof.
  intros Hv Hc Hpos Hsig Hexec Hlog Hheld.
  assert (Hsig' : sell_signal w = (Ok true, w)).
  { pose proof (sell_signal_world w) as Hw.
    destruct (sell_signal w) as [r w1]. simpl in *. congruence. }
  destruct (sell_branch w) as [r w'] eqn:E. simpl.
  unfold sell_branch in E. run_monad. cbv beta iota in E.
  rewrite Hv, Hc in E. cbv beta iota in E.
  apply Qltb_lt in Hpos. rewrite Hpos, Hsig' in E. cbv beta iota in E.
  rewrite Hexec in E.
  change (String.eqb "close" "close") with true in E.
  change (Qeq_bool SELL_PROP 1) with true in E. cbv beta iota in E.
  unfold sell in E. run_monad.
  assert (Hnz : (position_size w =? 0) = false) by (apply Z.eqb_neq; lia).
  assert (Habs : Z.abs (position_size w) = position_size w) by lia.
  destruct (transaction_logging (self w)) eqn:Et.
  - destruct (Hlog eq_refl) as [close1 Hclose1].
    rewrite Hclose1 in E. cbv beta iota in E. simpl in E.
    rewrite Hnz in E. inversion E; subst. simpl.
    unfold sell_order. rewrite Habs. auto.
  - cbv beta iota in E. rewrite Hnz in E. inversion E; subst. simpl.
    unfold sell_order. rewrite Habs. auto.
Qed.

(** C9.  In the sell branch with the close execution the whole position
    is sold, whatever [sell_prop] is: the test of line 208 reads the
    module constant [SELL_PROP], which is 1.  For every value [q] of
    [sell_prop], when the branch fires while [pos > 0] units are held,
    the order handed to the broker is a [Close] sell of size [pos]. *)
Theorem close_sell_liquidates_position (w : World) (v c q : Q) :
  value (self w) = Some v -> cash (self w) = Some c -> (0 < v - c)%Q ->
  fst (sell_signal w) = Ok true ->
  execution_type (self w) = "close"%string ->
  (transaction_logging (self w) = true ->
   exists close1, Py.getitem (dataclose w) (idx w + 1) = Some close1) ->
  0 < position_size w ->
  let w_q := with_self w (set_sell_prop (self w) q) in
  sell_prop (self w_q) = q
  /\ fst (sell_branch w_q) = Ok tt
  /\ submitted (snd (sell_branch w_q))
     = submitted w ++ [sell_order (position_size w) bt.Close]
  /\ order (self (snd (sell_branch w_q)))
     = Some (sell_order (position_size w) bt.Close).
Proof.
  intros Hv Hc Hpos Hsig Hexec Hlog Hheld w_q.
  split; [reflexivity|].
  apply (sell_branch_close w_q v c); auto.
  unfold w_q. now rewrite sell_signal_sell_prop.
Qed.

(** Ten units held and [sell_prop] set to a half, through the theorem:
    all ten are sold. *)
Lemma close_sell_liquidates_position_witness :
  submitted (snd (sell_branch
     (with_self (holding "close")
                (set_sell_prop (self (holding "close")) (1 # 2)))))
  = [sell_order 10 bt.Close].
Proof.
  apply (close_sell_liquidates_position (holding "close") 1050 50 (1 # 2));
    [reflexivity | reflexivity | reflexivity | reflexivity | reflexivity
    | intros _; exists 100%Q; reflexivity | reflexivity].
Defined.

(** C4 at the failing input.  With the open execution, [sell_prop = 1]
    and ten units held, [next] hands the broker a sell of 1000 units:
    the size of line 223 is [int((init_cash / dataopen[1]) * sell_prop)],
    which does not look at the position.  With the close execution the
    same bar sells the ten units held. *)
Theorem open_sell_exceeds_position :
  sell_prop (self (holding "open")) == 1
  /\ position_size (holding "open") = 10
  /\ fst (next (holding "open")) = Ok tt
  /\ placed (holding "open") [sell_order 1000 bt.Market]
  /\ placed (holding "close") [sell_order 10 bt.Close].
Proof. repeat split. Qed.

(** ** Order notifications *)

(** C7, as the claim states it, fails: with transaction logging off a
    refused order is cleared without a line being printed, whichever of
    the three causes it carries. *)
Lemma refusal_not_logged_counterexample :
  transaction_logging (self quiet) = false
  /\ stdout (snd (notify_order (refused bt.Canceled) quiet)) = []
  /\ stdout (snd (notify_order (refused bt.Margin) quiet)) = []
  /\ stdout (snd (notify_order (refused bt.Rejected) quiet)) = []
  /\ ~ (forall s, In s [bt.Canceled; bt.Margin; bt.Rejected] ->
        exists before,
          stdout (snd (notify_order (refused s) quiet))
          = before ++ refusal_lines s).
Proof.
  repeat split.
  intros H. destruct (H bt.Margin) as [before Hb]; [simpl; auto|].
  vm_compute in Hb. destruct before; discriminate.
Qed.

(** C7, as the code has it.  Once cash and value were reported, a
    notification with a terminal status returns with the pending order
    cleared; it hands nothing to the broker and leaves cash, value and
    position alone.  A completed buy records its executed price and
    commission as [buyprice] and [buycomm]; a completed sell and a
    refused order leave both as they were.  For a refused order the
    cause is printed, one line per cause with its truth value, when
    transaction logging is on, and nothing is printed when it is off. *)
Theorem notify_order_terminal (w : World) (o : bt.Order) (c v : Q) :
  cash (self w) = Some c -> value (self w) = Some v ->
  bt.status_in (bt.status o)
               [bt.Completed; bt.Canceled; bt.Margin; bt.Rejected] = true ->
  let w' := snd (notify_order o w) in
  fst (notify_order o w) = Ok tt
  /\ order (self w') = None
  /\ submitted w' = submitted w
  /\ position_size w' = position_size w
  /\ cash (self w') = Some c /\ value (self w') = Some v
  /\ (bt.status o = bt.Completed -> bt.isbuy o = true ->
      buyprice (self w') = Some (bt.price (bt.executed o))
      /\ buycomm (self w') = Some (bt.comm (bt.executed o)))
  /\ (bt.status o = bt.Completed -> bt.isbuy o = false ->
      buyprice (self w') = buyprice (self w)
      /\ buycomm (self w') = buycomm (self w))
  /\ (bt.status o <> bt.Completed ->
      buyprice (self w') = buyprice (self w)
      /\ buycomm (self w') = buycomm (self w)
      /\ (transaction_logging (self w) = false -> stdout w' = stdout w)
      /\ (transaction_logging (self w) = true ->
          stdout w'
          = stdout w
            ++ (if periodic_logging (self w) then []
                else [LogCashValue c v])
            ++ refusal_lines (bt.status o))).
Proof.
  intros Hc Hv Hst w'. subst w'.
  destruct (notify_order o w) as [r w'] eqn:E. simpl.
  unfold notify_order in E.
  destruct (bt.status o) eqn:Es; try discriminate Hst; simpl in E.
  - (* Completed *)
    run_monad. cbv beta iota in E.
    destruct (bt.isbuy o) eqn:Eb;
      destruct (transaction_logging (self w)) eqn:Et;
      inversion E; subst; simpl;
      repeat split; auto; try discriminate; congruence.
  - (* Canceled *)
    run_monad. cbv beta iota in E. rewrite Hc, Hv in E.
    destruct (transaction_logging (self w)) eqn:Et;
      destruct (periodic_logging (self w)) eqn:Ep;
      inversion E; subst; simpl;
      repeat split; auto; try discriminate; try congruence;
      now rewrite <- !app_assoc.
  - (* Margin *)
    run_monad. cbv beta iota in E. rewrite Hc, Hv in E.
    destruct (transaction_logging (self w)) eqn:Et;
      destruct (periodic_logging (self w)) eqn:Ep;
      inversion E; subst; simpl;
      repeat split; auto; try discriminate; try congruence;
      now rewrite <- !app_assoc.
  - (* Rejected *)
    run_monad. cbv beta iota in E. rewrite Hc, Hv in E.
    destruct (transaction_logging (self w)) eqn:Et;
      destruct (periodic_logging (self w)) eqn:Ep;
      inversion E; subst; simpl;
      repeat split; auto; try discriminate; try congruence;
      now rewrite <- !app_assoc.
Qed.

(** A margin refusal with transaction logging on, through the theorem:
    the pending order is cleared and the cause printed. *)
Lemma notify_order_terminal_witness :
  order (self (snd (notify_order (refused bt.Margin)
                                 (on_three_bars 1 (Some (buy_order 5))))))
  = None.
Proof.
  apply (notify_order_terminal (on_three_bars 1 (Some (buy_order 5)))
                               (refused bt.Margin) 100000 100000);
    reflexivity.
Defined.

(** ** Configuration *)






(** ** The commission *)





(** * Further properties of the callbacks *)

(** ** What a branch places *)

Lemma app_one_absurd {A : Type} (l : list A) (x : A) : l <> l ++ [x].
Proof.
  intros H. apply (f_equal (@List.length A)) in H.
  rewrite length_app in H. simpl in H. lia.
Qed.

Lemma view_stdout (w : World) (out : list Out) :
  view (with_stdout w out) = view w.
Proof. reflexivity. Qed.

(** The buy branch, in full: it leaves the [view] alone and either
    places nothing or returns with the buy [bought] describes as the
    pending order. *)
Lemma buy_branch_cases (w w' : World) (r : Result unit) :
  buy_branch w = (r, w') ->
  view w' = view w
  /\ (submitted w' = submitted w
      \/ exists o,
           submitted w' = submitted w ++ [o]
           /\ bought w o /\ r = Ok tt /\ order (self w') = Some o).
Proof.
  intros H. unfold buy_branch in H. run_monad. cbv beta iota in H.
  destruct (cash (self w)) as [c|] eqn:Ec; [|finished H; auto].
  rewrite Z.add_0_r in H.
  destruct (Py.getitem (dataclose w) (idx w)) as [close0|] eqn:Eg;
    [|finished H; auto].
  destruct (Qle_bool close0 c) eqn:Ele; [|finished H; auto].
  pose proof (buy_signal_world w) as Hs.
  destruct (buy_signal w) as [[[|]|e] w2] eqn:Eb; simpl in Hs; subst w2;
    [|finished H; auto|finished H; auto].
  destruct (transaction_logging (self w)); cbv beta iota in H;
    match type of H with
    | context [final_size c close0 ?w3] =>
        destruct (final_size_world c close0 w3) as [Hv [Hsub Hord]];
        pose proof (final_size_view c close0 w3 w eq_refl) as Hf;
        destruct (final_size c close0 w3) as [[n|e] w4] eqn:Ef;
        rewrite ?Ef in Hf
    end; simpl in Hv, Hsub, Hord, Hf;
    try (finished H; split; [assumption | left; assumption]);
    unfold buy in H; run_monad; destruct (n =? 0) eqn:En; finished H;
    try (split; [assumption | left; assumption]);
    (split; [exact Hv|]); right; eexists;
    (split; [simpl; rewrite Hsub; reflexivity|]);
    (split; [|split; reflexivity]);
    exists c, close0, n; repeat split; auto;
    try (apply Qle_bool_iff; assumption);
    try (rewrite Eb; reflexivity);
    try (apply Z.eqb_neq; assumption);
    first [ symmetry; exact Hf | rewrite Ef; reflexivity ].
Qed.

(** The sell branch, in full: it leaves the [view] alone and either
    places nothing or returns with the sell [sold] describes as the
    pending order. *)
Lemma sell_branch_cases (w w' : World) (r : Result unit) :
  sell_branch w = (r, w') ->
  view w' = view w
  /\ (submitted w' = submitted w
      \/ exists o,
           submitted w' = submitted w ++ [o]
           /\ sold w o /\ r = Ok tt /\ order (self w') = Some o).
Proof.
  intros H. unfold sell_branch in H. run_monad. cbv beta iota in H.
  destruct (value (self w)) as [v|] eqn:Ev; [|finished H; auto].
  destruct (cash (self w)) as [c|] eqn:Ec; [|finished H; auto].
  destruct (Qltb 0 (v - c)) eqn:Elt; [|finished H; auto].
  apply Qltb_lt in Elt.
  pose proof (sell_signal_world w) as Hs.
  destruct (sell_signal w) as [[[|]|e] w2] eqn:Eb; simpl in Hs; subst w2;
    [|finished H; auto|finished H; auto].
  unfold sell in H. run_monad.
  change (Qeq_bool SELL_PROP 1) with true in H.
  destruct (String.eqb_spec (execution_type (self w)) "close") as [Ex|Ex].
  - repeat (split_match_in H; cbv beta iota in H); finished H;
      try (split; [reflexivity | left; reflexivity]);
      (split; [reflexivity|]); right; eexists;
      (split; [reflexivity|]); (split; [|split; reflexivity]);
      exists v, c; repeat split; auto; try (rewrite Eb; reflexivity);
      left; repeat split; auto; apply Z.eqb_neq; assumption.
  - unfold Py.truediv in H.
    repeat (split_match_in H; cbv beta iota in H); finished H;
      try (split; [reflexivity | left; reflexivity]);
      (split; [reflexivity|]); right; eexists;
      (split; [reflexivity|]); (split; [|split; reflexivity]);
      exists v, c; repeat split; auto; try (rewrite Eb; reflexivity);
      right; (split; [assumption|]); eexists;
      (split; [eassumption|]);
      unfold open_sell_size; simpl;
      (split; [apply Qeq_bool_neq; assumption|]);
      (split; [apply Z.eqb_neq; assumption | reflexivity]).
Qed.

(** The fields the [view] carries. *)
Lemma view_fields (w w' : World) :
  view w' = view w ->
  dataclose w' = dataclose w /\ dataopen w' = dataopen w
  /\ idx w' = idx w /\ position_size w' = position_size w
  /\ cash (self w') = cash (self w) /\ value (self w') = value (self w)
  /\ execution_type (self w') = execution_type (self w)
  /\ init_cash (self w') = init_cash (self w)
  /\ sell_prop (self w') = sell_prop (self w)
  /\ buy_prop (self w') = buy_prop (self w)
  /\ len_data (self w') = len_data (self w)
  /\ buyprice (self w') = buyprice (self w)
  /\ buycomm (self w') = buycomm (self w).
Proof. unfold view. intros H. inversion H. repeat split; assumption. Qed.

Lemma bought_view (w w' : World) (o : bt.Order) :
  view w' = view w -> bought w' o -> bought w o.
Proof.
  intros Hv [c [close0 [n [Hc [Hg [Hle [Hs [Hf [Hn Ho]]]]]]]]].
  destruct (view_fields _ _ Hv)
    as [Hd [_ [Hi [_ [Hcash _]]]]].
  exists c, close0, n. repeat split; auto; try congruence.
  - destruct (signals_view _ _ Hv) as [Hb _]. congruence.
  - rewrite <- (final_size_view c close0 w' w Hv). exact Hf.
Qed.

Lemma sold_view (w w' : World) (o : bt.Order) :
  view w' = view w -> sold w' o -> sold w o.
Proof.
  intros Hv [v [c [Hval [Hc [Hlt [Hs Hcase]]]]]].
  destruct (view_fields _ _ Hv)
    as [_ [Hd [Hi [Hp [Hcash [Hvalue [He [Hic [Hsp _]]]]]]]]].
  exists v, c. repeat split; auto; try congruence.
  - destruct (signals_view _ _ Hv) as [_ Hb]. congruence.
  - destruct Hcase as [[Hx [Hnz Ho]]|[Hx [open1 [Hg [Ho1 [Hnz Ho]]]]]].
    + left. repeat split; congruence.
    + right. split; [congruence|]. exists open1.
      unfold open_sell_size in *. rewrite Hic, Hsp, Hd, Hi in *.
      repeat split; auto.
Qed.

(** [next], in full.  It leaves the [view] alone, and what it places is
    nothing, the buy of the buy branch, the sell of the sell branch, or
    the one followed by the other; whenever the sell branch placed a
    sell, that sell is the pending order. *)
Lemma next_cases (w : World) :
  view (snd (next w)) = view w
  /\ exists os,
       placed w os
       /\ (os = []
           \/ (exists b, os = [b] /\ bought w b)
           \/ (exists s, os = [s] /\ sold w s
                         /\ order (self (snd (next w))) = Some s)
           \/ (exists b s, os = [b; s] /\ bought w b /\ sold w s
                           /\ order (self (snd (next w))) = Some s)).
Proof.
  unfold placed. destruct (next w) as [r' w'] eqn:En. simpl.
  unfold next in En. unfold bind at 1 in En.
  destruct (log_close w) as [r w1] eqn:E1.
  destruct (log_close_effect _ _ _ E1) as [Hv1 [Hs1 _]].
  destruct r as [[]|e];
    [|finished En; split; [auto|]; exists []; rewrite app_nil_r; auto].
  unfold bind at 1 in En. unfold get in En.
  destruct (order (self w1));
    [finished En; split; [auto|]; exists []; rewrite app_nil_r; auto|].
  destruct (last_bar_guard w1);
    [finished En; split; [auto|]; exists []; rewrite app_nil_r; auto|].
  unfold bind at 1 in En.
  destruct (log_position w1) as [r w2] eqn:E2.
  destruct (log_position_effect _ _ _ E2) as [Hr [Hv2 [Hs2 _]]]. subst r.
  unfold bind in En.
  assert (Hvw2 : view w2 = view w) by congruence.
  destruct (buy_branch w2) as [[[]|e] w3] eqn:Eb;
    destruct (buy_branch_cases _ _ _ Eb) as [Hv3 Hb].
  - destruct (sell_branch_cases _ _ _ En) as [Hv4 Hsell].
    assert (Hvw3 : view w3 = view w) by congruence.
    split; [congruence|].
    destruct Hb as [Hb|[b [Hb [Hbb _]]]];
      destruct Hsell as [Hsell|[s [Hsell [Hss [_ Hso]]]]].
    + exists []. rewrite app_nil_r. split; [congruence | auto].
    + exists [s]. split; [congruence|]. right. right. left.
      exists s. repeat split; auto. now apply (sold_view w w3).
    + exists [b]. split; [congruence|]. right. left.
      exists b. split; auto. now apply (bought_view w w2).
    + exists [b; s]. split.
      * rewrite Hsell, Hb, Hs2, Hs1, <- app_assoc. reflexivity.
      * right. right. right. exists b, s. repeat split; auto.
        -- now apply (bought_view w w2).
        -- now apply (sold_view w w3).
  - finished En. split; [congruence|].
    destruct Hb as [Hb|[b [Hb [Hbb [Hr _]]]]]; [|discriminate].
    exists []. rewrite app_nil_r. split; [congruence | auto].
Qed.

Lemma placed_unique (w : World) (os os' : list bt.Order) :
  placed w os -> placed w os' -> os = os'.
Proof.
  unfold placed. intros H H'. rewrite H in H'. now apply app_inv_head in H'.
Qed.

(** ** What [next] never does *)

(** X1.  [next] writes the pending order, the printed output and the
    broker's queue, and nothing else: cash, value, the cost basis,
    [len_data], the data lines with their cursor and the position are
    as before, and the queue only grows at its end. *)
Theorem next_frame (w : World) :
  cash (self (snd (next w))) = cash (self w)
  /\ value (self (snd (next w))) = value (self w)
  /\ buyprice (self (snd (next w))) = buyprice (self w)
  /\ buycomm (self (snd (next w))) = buycomm (self w)
  /\ len_data (self (snd (next w))) = len_data (self w)
  /\ position_size (snd (next w)) = position_size w
  /\ dataclose (snd (next w)) = dataclose w
  /\ dataopen (snd (next w)) = dataopen w
  /\ idx (snd (next w)) = idx w
  /\ exists os, submitted (snd (next w)) = submitted w ++ os.
Proof.
  destruct (next_cases w) as [Hv [os [Hp _]]].
  destruct (view_fields _ _ Hv)
    as [H1 [H2 [H3 [H4 [H5 [H6 [_ [_ [_ [_ [H7 [H8 H9]]]]]]]]]]]].
  repeat split; auto. exists os. exact Hp.
Qed.

(** X2.  No buy without the cash for one unit at the close: when the
    cash is below the current close, whatever [next] places is a sell. *)
Theorem no_buy_below_close (w : World) (c close0 : Q) (os : list bt.Order) :
  cash (self w) = Some c ->
  Py.getitem (dataclose w) (idx w) = Some close0 ->
  (c < close0)%Q ->
  placed w os ->
  forall o, In o os -> bt.isbuy o = false.
Proof.
  intros Hc Hg Hlt Hp o Hin.
  destruct (next_cases w) as [_ [os' [Hp' Hcases]]].
  rewrite (placed_unique w os os' Hp Hp') in Hin.
  assert (Hnb : forall b, bought w b -> False).
  { intros b [c' [close' [n [Hc' [Hg' [Hle _]]]]]].
    assert (c' = c) by congruence. assert (close' = close0) by congruence.
    subst. eapply Qlt_not_le; eauto. }
  assert (Hs : forall s, sold w s -> bt.isbuy s = false).
  { intros s [v [c' [_ [_ [_ [_ Hcase]]]]]].
    destruct Hcase as [[_ [_ E]] | [_ [o1 [_ [_ [_ E]]]]]];
      subst; reflexivity. }
  destruct Hcases
    as [E | [[b [E Hb]] | [[s [E [Hsold _]]] | [b [s [E [Hb _]]]]]]].
  - subst. destruct Hin.
  - exfalso. eauto.
  - subst. destruct Hin as [<-|[]]. auto.
  - exfalso. eauto.
Qed.

(** Ten units and 50 in cash at the price 100, through the theorem. *)
Lemma no_buy_below_close_witness :
  placed (holding "close") [sell_order 10 bt.Close]
  /\ bt.isbuy (sell_order 10 bt.Close) = false.
Proof.
  split; [reflexivity|].
  apply (no_buy_below_close (holding "close") 50 100
                            [sell_order 10 bt.Close]);
    [reflexivity | reflexivity | reflexivity | reflexivity
    | left; reflexivity].
Defined.

(** X3.  No sell without stock: when the reported value does not exceed
    the cash, whatever [next] places is a buy. *)
Theorem no_sell_without_stock (w : World) (v c : Q) (os : list bt.Order) :
  value (self w) = Some v -> cash (self w) = Some c ->
  (v <= c)%Q ->
  placed w os ->
  forall o, In o os -> bt.isbuy o = true.
Proof.
  intros Hv Hc Hle Hp o Hin.
  destruct (next_cases w) as [_ [os' [Hp' Hcases]]].
  rewrite (placed_unique w os os' Hp Hp') in Hin.
  assert (Hns : forall s, sold w s -> False).
  { intros s [v' [c' [Hv' [Hc' [Hlt _]]]]].
    assert (v' = v) by congruence. assert (c' = c) by congruence. subst.
    apply (Qlt_not_le _ _ Hlt).
    apply (Qplus_le_l _ _ c). ring_simplify. exact Hle. }
  assert (Hb : forall b, bought w b -> bt.isbuy b = true).
  { intros b [c' [close' [n [_ [_ [_ [_ [_ [_ ->]]]]]]]]]. reflexivity. }
  destruct Hcases
    as [E | [[b [E Hbb]] | [[s [E [Hsold _]]] | [b [s [E [_ [Hsold _]]]]]]]].
  - subst. destruct Hin.
  - subst. destruct Hin as [<-|[]]. auto.
  - exfalso. eauto.
  - exfalso. eauto.
Qed.

(** All cash and no units on the first of three bars, through the
    theorem. *)
Lemma no_sell_without_stock_witness :
  placed (on_three_bars 0 None) [buy_order 991]
  /\ bt.isbuy (buy_order 991) = true.
Proof.
  split; [reflexivity|].
  apply (no_sell_without_stock (on_three_bars 0 None) 100000 100000
                               [buy_order 991]);
    [reflexivity | reflexivity | discriminate | reflexivity
    | left; reflexivity].
Defined.

(** ** The size of a buy, in closed form *)










(** ** The orders [next] places *)

(** X6.  The kind of every order [next] places: its size is positive
    and it is handed over as submitted; a buy is a market order under
    either execution type; a sell is a [Close] order under the close
    execution and a market order otherwise. *)
Theorem placed_order_kinds (w : World) (os : list bt.Order) (o : bt.Order) :
  placed w os -> In o os ->
  0 < bt.size o
  /\ bt.status o = bt.Submitted
  /\ (bt.isbuy o = true -> bt.exectype o = bt.Market)
  /\ (bt.isbuy o = false ->
      bt.exectype o
      = if String.eqb (execution_type (self w)) "close"
        then bt.Close else bt.Market).
Proof.
  intros Hp Hin.
  destruct (next_cases w) as [_ [os' [Hp' Hcases]]].
  rewrite (placed_unique w os os' Hp Hp') in Hin.
  assert (Hb : forall b, bought w b ->
                 0 < bt.size b /\ bt.status b = bt.Submitted
                 /\ bt.isbuy b = true /\ bt.exectype b = bt.Market).
  { intros b [c [close0 [n [_ [_ [_ [_ [_ [Hn ->]]]]]]]]].
    simpl. repeat split. lia. }
  assert (Hs : forall s, sold w s ->
                 0 < bt.size s /\ bt.status s = bt.Submitted
                 /\ bt.isbuy s = false
                 /\ bt.exectype s
                    = if String.eqb (execution_type (self w)) "close"
                      then bt.Close else bt.Market).
  { intros s [v [c [_ [_ [_ [_ Hcase]]]]]].
    destruct Hcase as [[Ex [Hn E]] | [Ex [o1 [_ [_ [Hn E]]]]]]; subst s; simpl.
    - rewrite Ex. repeat split. lia.
    - destruct (String.eqb_spec (execution_type (self w)) "close");
        [congruence|]. repeat split. lia. }
  assert (Ho : bought w o \/ sold w o).
  { destruct Hcases
      as [E | [[b [E Hbb]] | [[s [E [Hsold _]]] | [b [s [E [Hbb [Hsold _]]]]]]]];
      subst; simpl in Hin.
    - destruct Hin.
    - destruct Hin as [<-|[]]. auto.
    - destruct Hin as [<-|[]]. auto.
    - destruct Hin as [<-|[<-|[]]]; auto. }
  destruct Ho as [Ho|Ho].
  - destruct (Hb _ Ho) as [H1 [H2 [H3 H4]]].
    repeat split; auto. congruence.
  - destruct (Hs _ Ho) as [H1 [H2 [H3 H4]]].
    repeat split; auto. congruence.
Qed.

(** The two orders of the partly invested bar, through the theorem. *)
Lemma placed_order_kinds_witness :
  0 < bt.size (sell_order 10 bt.Close)
  /\ bt.status (sell_order 10 bt.Close) = bt.Submitted.
Proof.
  destruct (placed_order_kinds partly_invested
              [buy_order 4; sell_order 10 bt.Close] (sell_order 10 bt.Close))
    as [H1 [H2 _]];
    [reflexivity | right; left; reflexivity | split; assumption].
Defined.

(** X7.  When one call of [next] places a buy and a sell, the pending
    order it leaves in [self.order] is the sell: the handle of the buy,
    which the broker holds as well, is overwritten. *)
Theorem pending_order_is_the_sell (w : World) (b s : bt.Order) :
  placed w [b; s] ->
  order (self (snd (next w))) = Some s
  /\ bt.isbuy b = true /\ bt.isbuy s = false /\ s <> b.
Proof.
  intros Hp.
  destruct (next_cases w) as [_ [os' [Hp' Hcases]]].
  pose proof (placed_unique w _ _ Hp Hp') as E. subst os'.
  destruct Hcases
    as [E | [[b' [E _]] | [[s' [E _]] | [b' [s' [E [Hb [Hs Ho]]]]]]]];
    try discriminate.
  injection E as -> ->.
  assert (Hbb : bt.isbuy b' = true).
  { destruct Hb as [c [close0 [n [_ [_ [_ [_ [_ [_ ->]]]]]]]]]. reflexivity. }
  assert (Hsb : bt.isbuy s' = false).
  { destruct Hs as [v [c [_ [_ [_ [_ Hcase]]]]]].
    destruct Hcase as [[_ [_ E]] | [_ [o1 [_ [_ [_ E]]]]]];
      subst; reflexivity. }
  repeat split; auto. intros ->. congruence.
Qed.

(** The partly invested bar, through the theorem. *)
Lemma pending_order_is_the_sell_witness :
  order (self (snd (next partly_invested))) = Some (sell_order 10 bt.Close).
Proof.
  apply (pending_order_is_the_sell partly_invested (buy_order 4)).
  reflexivity.
Defined.

(** ** Exceptions of [next] *)

(** Past its two guards, on a bar of the feed, [next] is the buy branch
    followed by the sell branch, run on a world that differs from the
    given one in the printed output only. *)
Lemma next_unguarded (w : World) :
  order (self w) = None -> last_bar_guard w = false ->
  0 <= idx w < Z.of_nat (List.length (dataclose w)) ->
  exists w2,
    self w2 = self w /\ view w2 = view w /\ submitted w2 = submitted w
    /\ next w = (buy_branch ;; sell_branch) w2.
Proof.
  intros Ho Hg Hbar. unfold next. unfold bind at 1.
  destruct (log_close w) as [r w1] eqn:E1.
  destruct (log_close_effect _ _ _ E1) as [Hv1 [Hs1 [Hself1 [_ Hok]]]].
  rewrite (Hok Hbar). unfold bind at 1. unfold get.
  rewrite Hself1, Ho.
  assert (Hg1 : last_bar_guard w1 = false).
  { unfold last_bar_guard in *.
    destruct (view_position _ _ Hv1) as [_ Hi]. now rewrite Hself1, Hi. }
  rewrite Hg1. unfold bind at 1.
  destruct (log_position w1) as [r2 w2] eqn:E2.
  destruct (log_position_effect _ _ _ E2) as [Hr [Hv2 [Hs2 Hself2]]].
  subst r2. exists w2. repeat split; congruence.
Qed.

Lemma buy_branch_zero_price (w : World) (c close0 : Q) :
  cash (self w) = Some c ->
  Py.getitem (dataclose w) (idx w) = Some close0 ->
  (close0 == 0)%Q -> (0 <= c)%Q ->
  fst (buy_signal w) = Ok true ->
  fst (buy_branch w) = Raise Py.ZeroDivisionError
  /\ submitted (snd (buy_branch w)) = submitted w
  /\ order (self (snd (buy_branch w))) = order (self w).
Proof.
  intros Hc Hg Hz Hc0 Hsig.
  destruct (buy_branch w) as [r w'] eqn:H. simpl.
  unfold buy_branch in H. run_monad. cbv beta iota in H.
  rewrite Hc, Z.add_0_r, Hg in H. cbv beta iota in H.
  assert (Hle : Qle_bool close0 c = true).
  { apply Qle_bool_iff. now rewrite Hz. }
  rewrite Hle in H.
  pose proof (buy_signal_world w) as Hs.
  destruct (buy_signal w) as [rs w2]. simpl in Hs, Hsig. subst.
  cbv beta iota in H.
  assert (Hdiv : forall w3, final_size c close0 w3
                            = (Raise Py.ZeroDivisionError, w3)).
  { intros w3. unfold final_size, afforded_size. run_monad.
    unfold Py.truediv.
    assert (Hq : Qeq_bool (close0 * (1 + COMMISSION_PER_TRANSACTION
                                     + (1 # 1000))) 0 = true).
    { apply Qeq_bool_iff. rewrite Hz. apply Qmult_0_l. }
    now rewrite Hq. }
  destruct (transaction_logging (self w)); cbv beta iota in H;
    rewrite Hdiv in H; inversion H; subst; simpl; auto.
Qed.

(** X8.  A close of zero stops [next] with [ZeroDivisionError].  On a
    bar that passes both guards, with non-negative cash and a true buy
    signal, a current close of 0 passes the test of line 159 and the
    division of line 170 raises; nothing was placed, the pending order
    is unchanged and the sell branch is not run. *)
Theorem next_zero_close_raises (w : World) (c close0 : Q) :
  order (self w) = None -> last_bar_guard w = false ->
  0 <= idx w < Z.of_nat (List.length (dataclose w)) ->
  cash (self w) = Some c ->
  Py.getitem (dataclose w) (idx w) = Some close0 ->
  (close0 == 0)%Q -> (0 <= c)%Q ->
  fst (buy_signal w) = Ok true ->
  fst (next w) = Raise Py.ZeroDivisionError
  /\ submitted (snd (next w)) = submitted w
  /\ order (self (snd (next w))) = None.
Proof.
  intros Ho Hg Hbar Hc Hclose Hz Hc0 Hsig.
  destruct (next_unguarded w Ho Hg Hbar) as [w2 [Hself [Hv [Hsub ->]]]].
  destruct (view_fields _ _ Hv) as [Hd [_ [Hi _]]].
  destruct (buy_branch_zero_price w2 c close0) as [Hr [Hs Hord]];
    try congruence.
  { destruct (signals_view _ _ Hv) as [Hb _]. congruence. }
  unfold bind. destruct (buy_branch w2) as [r w3]. simpl in *. subst r.
  simpl. repeat split; congruence.
Qed.

(** The first of three bars with a close of 0, through the theorem. *)
Lemma next_zero_close_raises_witness :
  fst (next (at_bar [0; 100; 100]%Q [] 0 0
                    (base_strategy "close" true None 100 100 4)))
  = Raise Py.ZeroDivisionError.
Proof.
  apply (next_zero_close_raises _ 100 0);
    [reflexivity | reflexivity | simpl; lia | reflexivity | reflexivity
    | reflexivity | discriminate | reflexivity].
Defined.

(** The constructor assigns neither [cash] nor [value]. *)
Lemma __init__leaves_cash_unset (c : Class) (p : Params.t) (w : World) :
  idx w = -1 -> dataclose w <> [] ->
  cash (self (snd (__init__ c p w))) = None
  /\ value (self (snd (__init__ c p w))) = None
  /\ periodic_logging (self (snd (__init__ c p w)))
     = Params.periodic_logging p.
Proof.
  intros Hidx Hne.
  assert (Hb : forall c',
             cash (self (snd (BaseStrategy__init__ c' p w))) = None
             /\ value (self (snd (BaseStrategy__init__ c' p w))) = None
             /\ periodic_logging (self (snd (BaseStrategy__init__ c' p w)))
                = Params.periodic_logging p
             /\ fst (BaseStrategy__init__ c' p w) = Ok tt).
  { intros c'. unfold BaseStrategy__init__, bind, print.
    match goal with
    | |- context [list_datas0 ?w1] =>
        destruct (list_datas0_preloaded w1) as [l [Hl Hlen]];
        [exact Hidx | exact Hne | rewrite Hl]
    end.
    unfold put_self. simpl. auto. }
  destruct c; unfold __init__, RSIStrategy__init__, SMACStrategy__init__, bind.
  - destruct (Hb BaseStrategy) as [H1 [H2 [H3 _]]]. auto.
  - destruct (Hb RSIStrategy) as [H1 [H2 [H3 H4]]].
    destruct (BaseStrategy__init__ RSIStrategy p w) as [r w1].
    simpl in *. subst r. unfold get, put_self, print. simpl. auto.
  - destruct (Hb SMACStrategy) as [H1 [H2 [H3 H4]]].
    destruct (BaseStrategy__init__ SMACStrategy p w) as [r w1].
    simpl in *. subst r. unfold print. simpl. auto.
Qed.

(** X9.  A strategy is not ready for [next] when it leaves the
    constructor: [cash] and [value] are assigned by [notify_cashvalue]
    only.  On the first bar of a feed of two bars or more, [next] on the
    freshly constructed instance of any class raises
    [AttributeError] for [cash] and places nothing. *)
Theorem next_needs_cashvalue (c : Class) (p : Params.t) (w0 : World) :
  idx w0 = -1 ->
  (2 <= List.length (dataclose w0))%nat ->
  let w := with_idx (snd (__init__ c p w0)) 0 in
  fst (next w) = Raise (Py.AttributeError "cash")
  /\ submitted (snd (next w)) = submitted w0.
Proof.
  intros Hidx HN w.
  assert (Hne : dataclose w0 <> []).
  { intros E. rewrite E in HN. simpl in HN. lia. }
  destruct (__init__preloaded c p w0 Hidx Hne) as [w1 [E HC]].
  destruct (__init__leaves_cash_unset c p w0 Hidx Hne) as [Hcash _].
  subst w. rewrite E in *. simpl in Hcash. simpl.
  destruct HC.
  assert (Ho : order (self (with_idx w1 0)) = None) by exact ctor_order0.
  assert (Hg : last_bar_guard (with_idx w1 0) = false).
  { unfold last_bar_guard. simpl. rewrite ctor_len_data0.
    apply Z.leb_gt. lia. }
  assert (Hbar : 0 <= idx (with_idx w1 0)
                 < Z.of_nat (List.length (dataclose (with_idx w1 0)))).
  { simpl. rewrite ctor_dataclose0. lia. }
  destruct (next_unguarded _ Ho Hg Hbar) as [w2 [Hself [Hv [Hsub ->]]]].
  unfold bind. destruct (buy_branch w2) as [r w3] eqn:Eb.
  unfold buy_branch in Eb. run_monad. cbv beta iota in Eb.
  rewrite Hself in Eb. simpl in Eb. rewrite Hcash in Eb.
  inversion Eb; subst. simpl. split; [reflexivity|].
  rewrite Hsub. simpl. exact ctor_submitted0.
Qed.

(** The three-bar feed, through the theorem. *)
Lemma next_needs_cashvalue_witness :
  fst (next (with_idx (snd (__init__ BaseStrategy Params.default three_bars))
                      0))
  = Raise (Py.AttributeError "cash").
Proof.
  apply (next_needs_cashvalue BaseStrategy Params.default three_bars);
    [reflexivity | simpl; lia].
Defined.






(** ** Notifications *)

Lemma notify_order_market (o : bt.Order) (w : World) :
  market (snd (notify_order o w)) = market w
  /\ cash (self (snd (notify_order o w))) = cash (self w)
  /\ value (self (snd (notify_order o w))) = value (self w).
Proof.
  destruct (notify_order o w) as [r w'] eqn:E. simpl.
  unfold notify_order, len_self in E.
  destruct (bt.status o); simpl in E; run_monad; cbv beta iota in E;
    repeat (split_match_in E; cbv beta iota in E);
    finished E; repeat split; first [reflexivity | simpl; congruence].
Qed.

Lemma notify_cashvalue_market (c v : Q) (w : World) :
  fst (notify_cashvalue c v w) = Ok tt
  /\ market (snd (notify_cashvalue c v w)) = market w
  /\ order (self (snd (notify_cashvalue c v w))) = order (self w)
  /\ buyprice (self (snd (notify_cashvalue c v w))) = buyprice (self w)
  /\ buycomm (self (snd (notify_cashvalue c v w))) = buycomm (self w)
  /\ cash (self (snd (notify_cashvalue c v w))) = Some c
  /\ value (self (snd (notify_cashvalue c v w))) = Some v.
Proof.
  unfold notify_cashvalue. run_monad.
  destruct (periodic_logging (self w)); simpl; repeat split; reflexivity.
Qed.

Lemma notify_trade_market (isclosed : bool) (pnl pnlcomm : Q) (w : World) :
  fst (notify_trade isclosed pnl pnlcomm w) = Ok tt
  /\ market (snd (notify_trade isclosed pnl pnlcomm w)) = market w
  /\ self (snd (notify_trade isclosed pnl pnlcomm w)) = self w.
Proof.
  unfold notify_trade. run_monad.
  destruct isclosed; simpl; [|auto].
  destruct (transaction_logging (self w)); simpl; auto.
Qed.

(** X11.  Only [next] talks to the broker.  Whatever they are called
    with and however they end, [notify_order], [notify_cashvalue] and
    [notify_trade] hand the broker no order and leave the position, the
    data lines with their cursor and [len_data] as they were;
    [notify_order] does not touch cash and value, [notify_cashvalue]
    changes cash and value and neither the pending order nor the cost
    basis, and [notify_trade] leaves the whole strategy object alone. *)
Theorem notifications_leave_broker_alone
        (o : bt.Order) (c v pnl pnlcomm : Q) (isclosed : bool) (w : World) :
  (market (snd (notify_order o w)) = market w
   /\ cash (self (snd (notify_order o w))) = cash (self w)
   /\ value (self (snd (notify_order o w))) = value (self w))
  /\ (market (snd (notify_cashvalue c v w)) = market w
      /\ order (self (snd (notify_cashvalue c v w))) = order (self w)
      /\ buyprice (self (snd (notify_cashvalue c v w))) = buyprice (self w)
      /\ buycomm (self (snd (notify_cashvalue c v w))) = buycomm (self w))
  /\ (market (snd (notify_trade isclosed pnl pnlcomm w)) = market w
      /\ self (snd (notify_trade isclosed pnl pnlcomm w)) = self w).
Proof.
  split; [apply notify_order_market|]. split.
  - destruct (notify_cashvalue_market c v w) as [_ [H1 [H2 [H3 [H4 _]]]]].
    auto.
  - destruct (notify_trade_market isclosed pnl pnlcomm w) as [_ H]. exact H.
Qed.

(** X12.  Which notifications clear the pending order.  Once cash and
    value were reported, [notify_order] returns for every status; a
    submitted or accepted order leaves the world as it is, and every
    other status clears [self.order]: the four terminal ones, and also
    a created, partially filled or expired order, for which nothing is
    printed and nothing else changes. *)
Theorem notify_order_clears_unless_in_flight
        (o : bt.Order) (w : World) (c v : Q) :
  cash (self w) = Some c -> value (self w) = Some v ->
  fst (notify_order o w) = Ok tt
  /\ (bt.status_in (bt.status o) [bt.Submitted; bt.Accepted] = true ->
      notify_order o w = (Ok tt, w))
  /\ (bt.status_in (bt.status o) [bt.Submitted; bt.Accepted] = false ->
      order (self (snd (notify_order o w))) = None)
  /\ (bt.status_in (bt.status o) [bt.Created; bt.Partial; bt.Expired] = true ->
      notify_order o w = (Ok tt, with_self w (set_order (self w) None))).
Proof.
  intros Hc Hv.
  destruct (notify_order o w) as [r w'] eqn:E. simpl.
  unfold notify_order, len_self in E.
  destruct (bt.status o); simpl in E; run_monad; cbv beta iota in E;
    rewrite ?Hc, ?Hv in E; cbv beta iota in E;
    repeat (split_match_in E; cbv beta iota in E);
    finished E; repeat split; try reflexivity; try discriminate.
Qed.

(** A partial fill of the pending buy, through the theorem: the pending
    order is cleared. *)
Lemma notify_order_clears_unless_in_flight_witness :
  order (self (snd (notify_order (refused bt.Partial)
                                 (on_three_bars 1 (Some (buy_order 5))))))
  = None.
Proof.
  refine (proj1 (proj2 (proj2 (notify_order_clears_unless_in_flight
            (refused bt.Partial) (on_three_bars 1 (Some (buy_order 5)))
            100000 100000 _ _))) _); reflexivity.
Defined.

(** ** The signals *)

(** X13.  The signals of the two indicator strategies on a bar.  For
    the RSI strategy with [rsi_lower <= rsi_upper] the buy signal is
    true exactly below the lower bound and the sell signal exactly
    above the upper bound; for the crossover strategy the buy signal is
    true exactly for a positive crossover value and the sell signal for
    a negative one.  In both the two signals are never true together,
    and evaluating them changes nothing. *)
Theorem indicator_signals (w : World) (x : Q) :
  (cls (self w) = SMACStrategy ->
   Py.getitem (crossover w) (idx w) = Some x ->
   (fst (buy_signal w) = Ok true <-> (0 < x)%Q)
   /\ (fst (sell_signal w) = Ok true <-> (x < 0)%Q)
   /\ ~ (fst (buy_signal w) = Ok true /\ fst (sell_signal w) = Ok true))
  /\ (forall lo hi,
        cls (self w) = RSIStrategy ->
        rsi_lower (self w) = Some lo -> rsi_upper (self w) = Some hi ->
        (lo <= hi)%Q ->
        Py.getitem (rsi w) (idx w) = Some x ->
        (fst (buy_signal w) = Ok true <-> (x < lo)%Q)
        /\ (fst (sell_signal w) = Ok true <-> (hi < x)%Q)
        /\ ~ (fst (buy_signal w) = Ok true /\ fst (sell_signal w) = Ok true))
  /\ snd (buy_signal w) = w /\ snd (sell_signal w) = w.
Proof.
  split; [|split; [|split; [apply buy_signal_world | apply sell_signal_world]]].
  - intros Hc Hx. split; [|split].
    + unfold buy_signal. run_monad. rewrite Hc, Z.add_0_r, Hx. simpl.
      rewrite <- Qltb_lt. split; [now intros [= ->] | now intros ->].
    + unfold sell_signal. run_monad. rewrite Hc, Z.add_0_r, Hx. simpl.
      rewrite <- Qltb_lt. split; [now intros [= ->] | now intros ->].
    + intros [Hb Hs]. exact (SMAC_signals_exclusive w Hc Hb Hs).
  - intros lo hi Hc Hlo Hhi Hle Hx. split; [|split].
    + unfold buy_signal. run_monad. rewrite Hc, Z.add_0_r, Hx, Hlo. simpl.
      rewrite <- Qltb_lt. split; [now intros [= ->] | now intros ->].
    + unfold sell_signal. run_monad. rewrite Hc, Z.add_0_r, Hx, Hhi. simpl.
      rewrite <- Qltb_lt. split; [now intros [= ->] | now intros ->].
    + intros [Hb Hs]. exact (RSI_signals_exclusive w lo hi Hc Hlo Hhi Hle Hb Hs).
Qed.

(** An RSI of 25 under the default bounds 30 and 70, through the
    theorem: a buy signal. *)
Lemma indicator_signals_witness : fst (buy_signal (rsi_bar 25)) = Ok true.
Proof.
  destruct (indicator_signals (rsi_bar 25) 25) as [_ [H _]].
  destruct (H 30%Q 70%Q) as [Hb _];
    [reflexivity | reflexivity | reflexivity | discriminate | reflexivity |].
  apply Hb. reflexivity.
Defined.

(** ** A whole run *)

(** The broker serving its queue moves the position and nothing else of
    the world, and counts the orders it served. *)
Lemma serve_effect (q : list bt.Order) (b : Cerebro.Broker) (w : World) :
  Cerebro.served (fst (fst (Cerebro.serve b w q)))
  = (Cerebro.served b + List.length q)%nat
  /\ dataclose (snd (fst (Cerebro.serve b w q))) = dataclose w
  /\ idx (snd (fst (Cerebro.serve b w q))) = idx w
  /\ submitted (snd (fst (Cerebro.serve b w q))) = submitted w
  /\ self (snd (fst (Cerebro.serve b w q))) = self w.
Proof.
  revert b w. induction q as [|o q IH]; intros b w; simpl.
  - repeat split; auto.
  - destruct (Cerebro.fill b w o) as [[b1 w1] o1] eqn:Ef.
    specialize (IH b1 w1).
    destruct (Cerebro.serve b1 w1 q) as [[b2 w2] os]. simpl in *.
    assert (Hf : Cerebro.served b1 = S (Cerebro.served b)
                 /\ dataclose w1 = dataclose w /\ idx w1 = idx w
                 /\ submitted w1 = submitted w /\ self w1 = self w).
    { unfold Cerebro.fill in Ef.
      repeat (split_match_in Ef; cbv beta iota in Ef);
        inversion Ef; subst; simpl; auto. }
    destruct Hf as [H1 [H2 [H3 [H4 H5]]]].
    destruct IH as [I1 [I2 [I3 [I4 I5]]]].
    repeat split; try congruence. lia.
Qed.

Lemma market_fields (w w' : World) :
  market w' = market w ->
  dataclose w' = dataclose w /\ idx w' = idx w
  /\ submitted w' = submitted w /\ len_data (self w') = len_data (self w).
Proof. unfold market. intros H. inversion H. auto. Qed.

Lemma notify_all_market (os : list bt.Order) (w : World) :
  market (snd (Cerebro.notify_all os w)) = market w.
Proof.
  revert w. induction os as [|o os IH]; intros w; simpl; [reflexivity|].
  unfold Cerebro.notify. unfold bind.
  destruct (notify_order_market (bt.with_status o bt.Submitted bt.no_execution) w)
    as [H1 _].
  destruct (notify_order (bt.with_status o bt.Submitted bt.no_execution) w)
    as [[[]|e] w1]; simpl in H1; [|exact H1].
  destruct (notify_order_market (bt.with_status o bt.Accepted bt.no_execution) w1)
    as [H2 _].
  destruct (notify_order (bt.with_status o bt.Accepted bt.no_execution) w1)
    as [[[]|e] w2]; simpl in H2; [|simpl; congruence].
  destruct (notify_order_market o w2) as [H3 _].
  destruct (notify_order o w2) as [[[]|e] w3]; simpl in H3;
    [|simpl; congruence].
  rewrite IH. congruence.
Qed.

(** One bar of the engine: the feed and [len_data] stay, the cursor is
    on the bar, the broker has served all that was queued before the
    bar, and the queue grew by what [next] placed; on the last bar of
    the feed it did not grow. *)
Lemma bar_effect (warm i : Z) (b b' : Cerebro.Broker) (w w' : World)
      (r : Result unit) :
  Cerebro.bar warm (b, w) i = (r, (b', w')) ->
  (Cerebro.served b <= List.length (submitted w))%nat ->
  dataclose w' = dataclose w
  /\ len_data (self w') = len_data (self w)
  /\ Cerebro.served b' = List.length (submitted w)
  /\ (exists os, submitted w' = submitted w ++ os)
  /\ (len_data (self w) = Z.of_nat (List.length (dataclose w)) + 1 ->
      i = Z.of_nat (List.length (dataclose w)) - 1 -> 0 <= i ->
      submitted w' = submitted w).
Proof.
  intros H Hserved. unfold Cerebro.bar in H.
  pose proof (serve_effect (skipn (Cerebro.served b)
                                  (submitted (with_idx w i)))
                           b (with_idx w i)) as Hs.
  destruct (Cerebro.serve b (with_idx w i) _) as [[b1 w1] os].
  simpl in Hs. destruct Hs as [S1 [S2 [S3 [S4 S5]]]].
  rewrite length_skipn in S1.
  set (v := (Cerebro.getcash b1
             + inject_Z (position_size w1) * Cerebro.price_at w1 0)%Q) in *.
  unfold bind in H.
  pose proof (notify_all_market os w1) as Hn.
  destruct (Cerebro.notify_all os w1) as [[[]|e] w2]; simpl in Hn.
  2:{ inversion H; subst.
      destruct (market_fields _ _ Hn) as [M1 [M2 [M3 M4]]].
      rewrite S2 in M1. rewrite S4 in M3. rewrite S5 in M4.
      repeat split; try congruence; try lia;
        try (exists []; rewrite app_nil_r; congruence). }
  destruct (notify_cashvalue_market (Cerebro.getcash b1) (Qred v) w2)
    as [C0 [C1 _]].
  destruct (notify_cashvalue (Cerebro.getcash b1) (Qred v) w2)
    as [rc w3]. simpl in C0, C1. subst rc.
  assert (Hm : market w3 = market w1) by congruence.
  destruct (market_fields _ _ Hm) as [M1 [M2 [M3 M4]]].
  rewrite S2 in M1. rewrite S3 in M2. rewrite S4 in M3. rewrite S5 in M4.
  unfold when in H. destruct (warm <=? i).
  - destruct (next_cases w3) as [Hv [os' [Hp _]]].
    destruct (view_fields _ _ Hv)
      as [V1 [_ [V3 [_ [_ [_ [_ [_ [_ [_ [V5 _]]]]]]]]]]].
    destruct (next w3) as [rn w4] eqn:En. inversion H; subst.
    unfold placed in Hp. rewrite En in Hp. simpl in *.
    repeat split; try congruence; try lia.
    + exists os'. congruence.
    + intros Hlen Hi Hpos.
      assert (Hg : last_bar_guard w3 = true).
      { unfold last_bar_guard. rewrite M4, M2, Hlen. apply Z.leb_le. lia. }
      assert (Hbar : 0 <= idx w3 < Z.of_nat (List.length (dataclose w3))).
      { rewrite M2, M1. lia. }
      destruct (next_guarded w3 (or_intror Hg) Hbar) as [_ [Hsub _]].
      rewrite En in Hsub. simpl in Hsub. congruence.
  - unfold ret in H. inversion H; subst.
    repeat split; try congruence; try lia;
      try (exists []; rewrite app_nil_r; congruence).
Qed.

Lemma bars_effect (warm : Z) (ixs : list Z) (b b' : Cerebro.Broker)
      (w w' : World) (r : Result unit) :
  Cerebro.bars warm (b, w) ixs = (r, (b', w')) ->
  (Cerebro.served b <= List.length (submitted w))%nat ->
  dataclose w' = dataclose w
  /\ len_data (self w') = len_data (self w)
  /\ (Cerebro.served b' <= List.length (submitted w'))%nat.
Proof.
  revert b w. induction ixs as [|i ixs IH]; intros b w H Hs;
    cbn [Cerebro.bars] in H.
  - inversion H; subst. auto.
  - destruct (Cerebro.bar warm (b, w) i) as [rb [b1 w1]] eqn:Eb.
    destruct (bar_effect _ _ _ _ _ _ _ Eb Hs) as [B1 [B2 [B3 [[os B4] _]]]].
    assert (Hs1 : (Cerebro.served b1 <= List.length (submitted w1))%nat).
    { rewrite B3, B4, length_app. lia. }
    destruct rb as [[]|e].
    + destruct (IH _ _ H Hs1) as [I1 [I2 I3]]. repeat split; congruence.
    + inversion H; subst. auto.
Qed.

Lemma bars_snoc (warm i : Z) (ixs : list Z) (bw bw' : Cerebro.Broker * World) :
  Cerebro.bars warm bw (ixs ++ [i]) = (Ok tt, bw') ->
  exists bw1 u,
    Cerebro.bars warm bw ixs = (Ok tt, bw1)
    /\ Cerebro.bar warm bw1 i = (Ok u, bw').
Proof.
  revert bw. induction ixs as [|j ixs IH]; intros bw H;
    cbn [Cerebro.bars app] in *.
  - destruct (Cerebro.bar warm bw i) as [[u|e] bw2] eqn:Eb;
      inversion H; subst. eauto.
  - destruct (Cerebro.bar warm bw j) as [[u|e] bw2]; [|discriminate].
    now apply IH.
Qed.

(** At the constructor the broker and the feed are out of reach. *)
Lemma __init__frame (c : Class) (p : Params.t) (w : World) :
  submitted (snd (__init__ c p w)) = submitted w
  /\ dataclose (snd (__init__ c p w)) = dataclose w
  /\ idx (snd (__init__ c p w)) = idx w.
Proof.
  destruct c; unfold __init__, RSIStrategy__init__, SMACStrategy__init__,
    BaseStrategy__init__, list_datas0; run_monad; cbv beta iota;
    repeat split_match; simpl; auto.
Qed.

(** A run that ends without an exception leaves the broker with nothing
    to serve. *)
Lemma run_serves_every_order (b b' : Cerebro.Broker) (warm : Z)
      (w w' : World) (c : Class) (p : Params.t) :
  idx w = -1 ->
  Cerebro.served b = List.length (submitted w) ->
  Cerebro.run b warm w c p = (Ok tt, (b', w')) ->
  Cerebro.served b' = List.length (submitted w').
Proof.
  intros Hidx Hs H. unfold Cerebro.run in H.
  destruct (__init__frame c p w) as [F1 [F2 F3]].
  destruct (dataclose w) as [|x l] eqn:El.
  - destruct (__init__ c p w) as [[[]|e] w1]; [|discriminate].
    simpl in F1, F2. rewrite F2 in H. simpl in H.
    inversion H; subst. congruence.
  - assert (Hne : dataclose w <> []) by congruence.
    destruct (__init__preloaded c p w Hidx Hne) as [w1 [E HC]].
    rewrite E in *. simpl in F1, F2. destruct HC.
    rewrite ctor_dataclose0, El in H.
    change (List.length (x :: l)) with (S (List.length l)) in H.
    rewrite seq_S, map_app in H. cbn [map Nat.add] in H.
    destruct (bars_snoc _ _ _ _ _ H) as [[b1 w2] [u [Hb Hlast]]].
    assert (Hs1 : (Cerebro.served b <= List.length (submitted w1))%nat)
      by (rewrite ctor_submitted0; lia).
    destruct (bars_effect _ _ _ _ _ _ _ Hb Hs1) as [B1 [B2 B3]].
    destruct (bar_effect _ _ _ _ _ _ _ Hlast B3) as [_ [_ [L3 [_ L5]]]].
    rewrite L3, L5; [reflexivity | | | lia].
    + rewrite B2, B1, ctor_len_data0, ctor_dataclose0. reflexivity.
    + rewrite B1, ctor_dataclose0, El. simpl List.length. lia.
Qed.

(** X14.  A backtest that returns leaves no order behind: every order
    the strategy placed was served by the broker, because [next] places
    nothing on the last bar of the feed. *)
Theorem backtest_serves_every_order
        (strategy : string) (data : list (list Q)) (ind : Indicators)
        (commission init_cash : Q) (data_format : string) (kw : Kwargs.t)
        (b : Cerebro.Broker) (w : World) :
  backtest strategy data ind commission init_cash data_format kw
  = (Ok tt, Some (b, w)) ->
  Cerebro.served b = List.length (submitted w).
Proof.
  unfold backtest. intros H.
  destruct (dict_getitem STRATEGY_MAPPING strategy) as [c|]; [|discriminate].
  destruct (dict_getitem DATA_FORMAT_MAPPING data_format) as [cols|];
    [|discriminate].
  destruct (Cerebro.run _ _ _ c _) as [[[]|e] [b1 w1]] eqn:Er;
    [|discriminate].
  inversion H; subst. simpl.
  eapply run_serves_every_order; [| |exact Er]; reflexivity.
Qed.

(** The base strategy on four bars, through the theorem: its five
    orders were all served. *)
Lemma backtest_serves_every_order_witness :
  exists b w,
    backtest "base" flat_data no_indicators COMMISSION_PER_TRANSACTION
             INIT_CASH "dcv" Kwargs.none = (Ok tt, Some (b, w))
    /\ Cerebro.served b = 5%nat /\ List.length (submitted w) = 5%nat.
Proof.
  do 2 eexists. split; [vm_compute; reflexivity|].
  split; [|reflexivity].
  refine (eq_trans (backtest_serves_every_order "base" flat_data no_indicators
            COMMISSION_PER_TRANSACTION INIT_CASH "dcv" Kwargs.none _ _ _) _);
    [vm_compute; reflexivity | reflexivity].
Defined.

(** ** Construction *)

Lemma list_datas0_any (w : World) :
  idx w = -1 ->
  exists l, list_datas0 w = (Ok l, w) /\ (dataclose w = [] -> l = []).
Proof.
  intros Hidx. destruct (dataclose w) as [|x t] eqn:El.
  - exists []. unfold list_datas0, bind, get. rewrite El, Hidx.
    split; [reflexivity | auto].
  - destruct (list_datas0_preloaded w Hidx) as [l [Hl _]]; [congruence|].
    exists l. split; [exact Hl | discriminate].
Qed.

(** X15.  What the constructor records about the feed.  On a preloaded
    feed the constructor of every class returns with no pending order
    and no cost basis; [len_data] is one more than the number of bars
    for a feed that has bars and 0 for a feed without any.  A strategy
    constructed on a feed without bars therefore never passes the guard
    of line 153: on any bar it might be given later, [next] places
    nothing. *)
Theorem constructor_records_feed_length
        (c : Class) (p : Params.t) (w0 : World) :
  idx w0 = -1 ->
  let s := self (snd (__init__ c p w0)) in
  fst (__init__ c p w0) = Ok tt
  /\ order s = None /\ buyprice s = None /\ buycomm s = None
  /\ (dataclose w0 <> [] ->
      len_data s = Z.of_nat (List.length (dataclose w0)) + 1)
  /\ (dataclose w0 = [] ->
      len_data s = 0
      /\ forall w, len_data (self w) = len_data s -> -2 <= idx w ->
                   last_bar_guard w = true
                   /\ (0 <= idx w < Z.of_nat (List.length (dataclose w)) ->
                       submitted (snd (next w)) = submitted w)).
Proof.
  intros Hidx s. subst s.
  assert (Hfresh : fst (__init__ c p w0) = Ok tt
                   /\ order (self (snd (__init__ c p w0))) = None
                   /\ buyprice (self (snd (__init__ c p w0))) = None
                   /\ buycomm (self (snd (__init__ c p w0))) = None
                   /\ (dataclose w0 = [] ->
                       len_data (self (snd (__init__ c p w0))) = 0)).
  { assert (Hb : forall c',
               fst (BaseStrategy__init__ c' p w0) = Ok tt
               /\ order (self (snd (BaseStrategy__init__ c' p w0))) = None
               /\ buyprice (self (snd (BaseStrategy__init__ c' p w0))) = None
               /\ buycomm (self (snd (BaseStrategy__init__ c' p w0))) = None
               /\ (dataclose w0 = [] ->
                   len_data (self (snd (BaseStrategy__init__ c' p w0))) = 0)).
    { intros c'. unfold BaseStrategy__init__, bind, print.
      match goal with
      | |- context [list_datas0 ?w1] =>
          destruct (list_datas0_any w1) as [l' [Hl Hlen]];
          [exact Hidx | rewrite Hl]
      end.
      unfold put_self. simpl. repeat split; auto.
      intros E. now rewrite (Hlen E). }
    destruct c; unfold __init__, RSIStrategy__init__,
      SMACStrategy__init__, bind.
    - apply Hb.
    - destruct (Hb RSIStrategy) as [H1 [H2 [H3 [H4 H5]]]].
      destruct (BaseStrategy__init__ RSIStrategy p w0) as [r w1].
      simpl in *. subst r. unfold get, put_self, print. simpl. auto.
    - destruct (Hb SMACStrategy) as [H1 [H2 [H3 [H4 H5]]]].
      destruct (BaseStrategy__init__ SMACStrategy p w0) as [r w1].
      simpl in *. subst r. unfold print. simpl. auto. }
  destruct Hfresh as [H1 [H2 [H3 [H4 H5]]]].
  do 4 (split; [assumption|]). split.
  - intros Hne. destruct (__init__preloaded c p w0 Hidx Hne) as [w1 [E HC]].
    rewrite E. simpl. now destruct HC.
  - intros Hempty. split; [auto|]. intros w Hlen Hi.
    assert (Hg : last_bar_guard w = true).
    { unfold last_bar_guard. rewrite Hlen, (H5 Hempty). apply Z.leb_le. lia. }
    split; [exact Hg|]. intros Hbar.
    now destruct (next_guarded w (or_intror Hg) Hbar) as [_ [Hsub _]].
Qed.

(** The three-bar feed, through the theorem: [len_data] is 4. *)
Lemma constructor_records_feed_length_witness :
  len_data (self (snd (__init__ BaseStrategy Params.default three_bars))) = 4.
Proof.
  refine (proj1 (proj2 (proj2 (proj2 (proj2
            (constructor_records_feed_length BaseStrategy Params.default
               three_bars _))))) _);
    [reflexivity | discriminate].
Defined.



(** ** A buy that is affordable *)





(** ** The configuration is written once *)

Lemma view_config (w w' : World) :
  view w' = view w -> config (self w') = config (self w).
Proof. unfold view, config. intros H. inversion H. congruence. Qed.

Lemma notify_order_config (o : bt.Order) (w : World) :
  config (self (snd (notify_order o w))) = config (self w).
Proof.
  destruct (notify_order o w) as [r w'] eqn:E. simpl.
  unfold notify_order, len_self in E.
  destruct (bt.status o); simpl in E; run_monad; cbv beta iota in E;
    repeat (split_match_in E; cbv beta iota in E);
    finished E; reflexivity.
Qed.

Lemma notify_cashvalue_config (c v : Q) (w : World) :
  config (self (snd (notify_cashvalue c v w))) = config (self w).
Proof.
  unfold notify_cashvalue. run_monad.
  destruct (periodic_logging (self w)); reflexivity.
Qed.

Lemma notify_all_config (os : list bt.Order) (w : World) :
  config (self (snd (Cerebro.notify_all os w))) = config (self w).
Proof.
  revert w. induction os as [|o os IH]; intros w; simpl; [reflexivity|].
  unfold Cerebro.notify. unfold bind.
  pose proof (notify_order_config
                (bt.with_status o bt.Submitted bt.no_execution) w) as H1.
  destruct (notify_order (bt.with_status o bt.Submitted bt.no_execution) w)
    as [[[]|e] w1]; simpl in H1; [|exact H1].
  pose proof (notify_order_config
                (bt.with_status o bt.Accepted bt.no_execution) w1) as H2.
  destruct (notify_order (bt.with_status o bt.Accepted bt.no_execution) w1)
    as [[[]|e] w2]; simpl in H2; [|simpl; congruence].
  pose proof (notify_order_config o w2) as H3.
  destruct (notify_order o w2) as [[[]|e] w3]; simpl in H3;
    [|simpl; congruence].
  rewrite IH. congruence.
Qed.

Lemma bar_config (warm i : Z) (b : Cerebro.Broker) (w : World) :
  config (self (snd (snd (Cerebro.bar warm (b, w) i)))) = config (self w).
Proof.
  unfold Cerebro.bar.
  destruct (serve_effect (skipn (Cerebro.served b)
                                (submitted (with_idx w i)))
                         b (with_idx w i)) as [_ [_ [_ [_ Hself]]]].
  destruct (Cerebro.serve b (with_idx w i)
              (skipn (Cerebro.served b) (submitted (with_idx w i))))
    as [[b1 w1] os]. simpl in Hself.
  unfold bind.
  pose proof (notify_all_config os w1) as Hn.
  destruct (Cerebro.notify_all os w1) as [[[]|e] w2]; simpl in Hn;
    [|simpl; congruence].
  pose proof (notify_cashvalue_config (Cerebro.getcash b1)
                (Qred (Cerebro.getcash b1
                       + inject_Z (position_size w1)
                         * Cerebro.price_at w1 0)) w2) as Hc.
  destruct (notify_cashvalue _ _ w2) as [[[]|e] w3]; simpl in Hc;
    [|simpl; congruence].
  unfold when. destruct (warm <=? i).
  - pose proof (view_config w3 (snd (next w3))
                  (proj1 (next_cases w3))) as Hx.
    destruct (next w3) as [rn w4]. simpl in *. congruence.
  - simpl. congruence.
Qed.

Lemma bars_config (warm : Z) (ixs : list Z) (b : Cerebro.Broker)
      (w : World) :
  config (self (snd (snd (Cerebro.bars warm (b, w) ixs)))) = config (self w).
Proof.
  revert b w. induction ixs as [|i ixs IH]; intros b w;
    cbn [Cerebro.bars]; [reflexivity|].
  pose proof (bar_config warm i b w) as Hb.
  destruct (Cerebro.bar warm (b, w) i) as [[[]|e] [b1 w1]]; simpl in Hb.
  - rewrite IH. exact Hb.
  - exact Hb.
Qed.

(** X18.  The configuration is written once.  The class, the
    parameters, [init_cash], the two proportions, the execution type,
    the two logging switches, [len_data] and the RSI bounds are set by
    the constructor and by nothing else: [next] and the three
    notifications leave them as they are whatever they are called with
    and however they end, and so does a whole run, which ends, also on
    an exception, with the configuration its constructor left. *)
Theorem configuration_written_once
        (o : bt.Order) (c v pnl pnlcomm : Q) (isclosed : bool) (w : World)
        (b : Cerebro.Broker) (warm : Z) (k : Class) (p : Params.t) :
  config (self (snd (next w))) = config (self w)
  /\ config (self (snd (notify_order o w))) = config (self w)
  /\ config (self (snd (notify_cashvalue c v w))) = config (self w)
  /\ config (self (snd (notify_trade isclosed pnl pnlcomm w)))
     = config (self w)
  /\ config (self (snd (snd (Cerebro.run b warm w k p))))
     = config (self (snd (__init__ k p w))).
Proof.
  split; [apply view_config, next_cases|].
  split; [apply notify_order_config|].
  split; [apply notify_cashvalue_config|].
  split.
  - destruct (notify_trade_market isclosed pnl pnlcomm w) as [_ [_ H]].
    now rewrite H.
  - unfold Cerebro.run.
    destruct (__init__ k p w) as [[[]|e] w1]; simpl; [|reflexivity].
    apply bars_config.
Qed.

(** ** The only exception of [notify_order] *)

(** X19.  [notify_order] raises in one situation only: a cancelled,
    margin or rejected order arrives with transaction logging on and
    periodic logging off before [notify_cashvalue] has assigned cash and
    value.  The exception is the [AttributeError] of the first missing
    attribute, nothing was printed or changed by then, and the pending
    order is not cleared.  In every other situation the call returns. *)
Theorem notify_order_raises_only_unreported (o : bt.Order) (w : World) :
  let logged_refusal :=
    bt.status_in (bt.status o) [bt.Canceled; bt.Margin; bt.Rejected]
    && transaction_logging (self w) && negb (periodic_logging (self w)) in
  (logged_refusal = true -> cash (self w) = None ->
   notify_order o w = (Raise (Py.AttributeError "cash"), w))
  /\ (logged_refusal = true -> cash (self w) <> None ->
      value (self w) = None ->
      notify_order o w = (Raise (Py.AttributeError "value"), w))
  /\ (logged_refusal = false
      \/ (cash (self w) <> None /\ value (self w) <> None) ->
      fst (notify_order o w) = Ok tt).
Proof.
  intros logged_refusal. subst logged_refusal.
  destruct (notify_order o w) as [r w'] eqn:E. simpl.
  unfold notify_order, len_self in E.
  destruct (bt.status o); simpl in E; run_monad; cbv beta iota in E;
    repeat (split_match_in E; cbv beta iota in E);
    finished E;
    repeat match goal with
           | H : negb _ = _ |- _ => rewrite H
           | H : transaction_logging _ = _ |- _ => rewrite H
           | H : periodic_logging _ = _ |- _ => rewrite H
           | H : cash _ = _ |- _ => rewrite H
           | H : value _ = _ |- _ => rewrite H
           end;
    simpl; repeat split; intros;
    repeat match goal with
           | H : _ \/ _ |- _ => destruct H
           | H : _ /\ _ |- _ => destruct H
           end;
    try reflexivity; try discriminate; congruence.
Qed.

(** A margin call on the first bar of a freshly constructed strategy,
    through the theorem: the call raises and the world is as before. *)
Lemma notify_order_raises_only_unreported_witness :
  notify_order (refused bt.Margin) (rsi_bar 50)
  = (Raise (Py.AttributeError "cash"), rsi_bar 50).
Proof.
  refine (proj1 (notify_order_raises_only_unreported
                   (refused bt.Margin) (rsi_bar 50)) _ _); reflexivity.
Defined.
